(** * dumps2extxyz: the LAMMPS dump scanner and its extended-XYZ encoder

    A shallow embedding of [process_dump_file] (dumps2extxyz.py): the
    text layer ([str.split], [str.strip], [in], [int], [float], the
    [repr] and [.8f] renderings of a float), the frame scanner with its
    skip path and its full-parse path, and the rendering of one block.

    Conventions of the embedding.
    - A character is a code point below 256; a file opened in text mode is
      the list of its lines, without their terminators (the terminator
      plays no part in [split], [strip] or the marker test).
      [f.readline()] at end of file, Python's empty string, is [None].
    - A Python [float] is an IEEE-754 binary64 value: [spec_float] with
      precision 53 and exponent bound 1024, round to nearest even.
    - A Python [int] is a [Z].
    - Exceptions are values: a computation returns [Ok v] or [Raise e].
    - [os.path] is the Python library's: [base_name] and [rel_path], which
      the source derives from the file's path, are inputs of the model. *)

From Stdlib Require Import ZArith String Ascii List Lia Bool SpecFloat.
From stdpp Require Import base option gmap strings.
Import ListNotations.

Local Open Scope string_scope.
Local Open Scope Z_scope.

(** ** Text *)

Module Text.

(** [str.isspace] on a one-character string, for code points below 256. *)
Definition isspace (c : ascii) : bool :=
  let n := N_of_ascii c in
  ((9 <=? n) && (n <=? 13) || (28 <=? n) && (n <=? 32)
   || (n =? 133) || (n =? 160))%N.

Definition isdigit (c : ascii) : bool :=
  let n := N_of_ascii c in ((48 <=? n) && (n <=? 57))%N.

Definition digit_val (c : ascii) : Z := Z.of_N (N_of_ascii c) - 48.

Definition digit_char (d : Z) : ascii := ascii_of_N (Z.to_N (48 + d)).

(** ASCII lower-casing, as the float parser compares [inf] and [nan]. *)
Definition lower (c : ascii) : ascii :=
  let n := N_of_ascii c in
  if ((65 <=? n) && (n <=? 90))%N then ascii_of_N (n + 32) else c.

Fixpoint lower_str (s : string) : string :=
  match s with
  | EmptyString => EmptyString
  | String c s' => String (lower c) (lower_str s')
  end.

Fixpoint lstrip (s : string) : string :=
  match s with
  | String c s' => if isspace c then lstrip s' else s
  | EmptyString => EmptyString
  end.

(** Drops trailing whitespace: a character is kept when it is not a space
    or when something is kept after it. *)
Fixpoint rstrip (s : string) : string :=
  match s with
  | EmptyString => EmptyString
  | String c s' =>
      match rstrip s' with
      | EmptyString => if isspace c then EmptyString else String c EmptyString
      | r => String c r
      end
  end.

(** [s.strip()] *)
Definition strip (s : string) : string := rstrip (lstrip s).

(** [s.split()]: the maximal runs of non-whitespace characters. [tok] is
    the run being read. *)
Fixpoint split_from (tok : string) (s : string) : list string :=
  match s with
  | EmptyString => match tok with EmptyString => [] | _ => [tok] end
  | String c s' =>
      if isspace c then
        match tok with
        | EmptyString => split_from EmptyString s'
        | _ => tok :: split_from EmptyString s'
        end
      else split_from (tok ++ String c EmptyString) s'
  end.

Definition split (s : string) : list string := split_from EmptyString s.

(** [pat in s] *)
Fixpoint contains (pat s : string) : bool :=
  String.prefix pat s
  || match s with
     | EmptyString => false
     | String _ s' => contains pat s'
     end.

(** [sep.join(parts)] *)
Fixpoint join (sep : string) (parts : list string) : string :=
  match parts with
  | [] => EmptyString
  | [p] => p
  | p :: rest => p ++ sep ++ join sep rest
  end.

(** [parts[lo:hi]] for non-negative bounds. *)
Definition slice {A} (l : list A) (lo hi : nat) : list A :=
  firstn (hi - lo) (skipn lo l).

(** The double-quote character and the line feed, as strings. *)
Definition dq : string := String (ascii_of_N 34) EmptyString.
Definition nl : string := String (ascii_of_N 10) EmptyString.

End Text.

(** ** Integers: [int(s)] and [str(n)] *)

Module PyInt.
Import Text.

(** A digit part: digits with single underscores between them,
    [digit (["_"] digit)*]. [digitpart s = Some (n, k)] gives the value
    and the number of digits. [acc] and [cnt] carry the digits read;
    [prev] tells whether the previous character was a digit. *)
Fixpoint digitpart_from (acc : Z) (cnt : Z) (prev : bool) (s : string)
  : option (Z * Z) :=
  match s with
  | EmptyString => if prev then Some (acc, cnt) else None
  | String c s' =>
      if isdigit c then digitpart_from (10 * acc + digit_val c) (cnt + 1) true s'
      else if (Ascii.eqb c "_" && prev)%bool then digitpart_from acc cnt false s'
      else None
  end.

Definition digitpart (s : string) : option (Z * Z) :=
  digitpart_from 0 0 false s.

(** An optional sign: [true] for a minus, and the rest. *)
Definition take_sign (s : string) : bool * string :=
  match s with
  | String "-" s' => (true, s')
  | String "+" s' => (false, s')
  | _ => (false, s)
  end.

(** [int(s)], base ten: [None] is [ValueError]. *)
Definition int (s : string) : option Z :=
  let (neg, body) := take_sign (strip s) in
  match digitpart body with
  | Some (n, _) => Some (if neg then - n else n)
  | None => None
  end.

(** The decimal digits of a non-negative number, most significant first. *)
Fixpoint digits_from (fuel : nat) (n : Z) (acc : string) : string :=
  match fuel with
  | O => acc
  | S fuel' =>
      let acc' := String (digit_char (n mod 10)) acc in
      if n <? 10 then acc' else digits_from fuel' (n / 10) acc'
  end.

Definition digits (n : Z) : string :=
  digits_from (S (Z.to_nat (Z.log2 n))) n EmptyString.

(** [str(n)], which is also [f"{n}"]. *)
Definition str (n : Z) : string :=
  if n <? 0 then "-" ++ digits (- n) else digits n.

(** [w] digits of [n], zero-padded on the left. *)
Fixpoint padded (w : nat) (n : Z) (acc : string) : string :=
  match w with
  | O => acc
  | S w' => padded w' (n / 10) (String (digit_char (n mod 10)) acc)
  end.

End PyInt.

(** ** Floats: [float(s)], [+], [-], [repr] and the [.8f] format *)

Module PyFloat.
Import Text.

Definition float : Type := spec_float.

Definition prec : Z := 53.
Definition emax : Z := 1024.

Definition fadd : float -> float -> float := SFadd prec emax.
Definition fsub : float -> float -> float := SFsub prec emax.

(** The literal [0.0]. *)
Definition zero : float := S754_zero false.

Definition is_finite (x : float) : bool :=
  match x with
  | S754_zero _ | S754_finite _ _ _ => true
  | _ => false
  end.

(** The binary64 value nearest to [(-1)^neg * d * 10^k], ties to even. *)
Definition of_decimal (neg : bool) (d k : Z) : float :=
  match d with
  | Zpos p =>
      if 0 <=? k then binary_round prec emax neg (Z.to_pos (Zpos p * 10 ^ k)) 0
      else
        let '(q, e, l) :=
          SFdiv_core_binary prec emax (Zpos p) 0 (10 ^ (- k)) 0 in
        binary_round_aux prec emax neg q e l
  | _ => S754_zero neg
  end.

(** [break_at p s]: the text before the first character satisfying [p],
    and the text after it when there is one. *)
Fixpoint break_at (p : ascii -> bool) (s : string) : string * option string :=
  match s with
  | EmptyString => (EmptyString, None)
  | String c s' =>
      if p c then (EmptyString, Some s')
      else let (a, b) := break_at p s' in (String c a, b)
  end.

Definition is_dot (c : ascii) : bool := Ascii.eqb c ".".
Definition is_e (c : ascii) : bool := Ascii.eqb c "e" || Ascii.eqb c "E".

(** [number ::= [digitpart] "." digitpart | digitpart ["."]]: the digits
    as one integer, and how many of them follow the point. *)
Definition number (s : string) : option (Z * Z) :=
  let (ip, fp) := break_at is_dot s in
  match ip, fp with
  | EmptyString, Some f =>
      PyInt.digitpart f
  | _, None | _, Some EmptyString =>
      match PyInt.digitpart ip with
      | Some (n, _) => Some (n, 0)
      | None => None
      end
  | _, Some f =>
      match PyInt.digitpart ip, PyInt.digitpart f with
      | Some (n, _), Some (m, c) => Some (n * 10 ^ c + m, c)
      | _, _ => None
      end
  end.

(** [exponent ::= ("e" | "E") [sign] digitpart], after its letter. *)
Definition exponent (s : string) : option Z :=
  let (neg, body) := PyInt.take_sign s in
  match PyInt.digitpart body with
  | Some (n, _) => Some (if neg then - n else n)
  | None => None
  end.

(** [floatnumber ::= number [exponent]], as digits and a power of ten. *)
Definition floatnumber (s : string) : option (Z * Z) :=
  let (mant, ex) := break_at is_e s in
  match number mant with
  | None => None
  | Some (d, c) =>
      match ex with
      | None => Some (d, - c)
      | Some e =>
          match exponent e with
          | Some x => Some (d, x - c)
          | None => None
          end
      end
  end.

(** [float(s)]: [None] is [ValueError]. *)
Definition float_of_string (s : string) : option float :=
  let (neg, body) := PyInt.take_sign (strip s) in
  let low := lower_str body in
  if String.eqb low "inf" || String.eqb low "infinity" then
    Some (S754_infinity neg)
  else if String.eqb low "nan" then Some S754_nan
  else
    match floatnumber body with
    | Some (d, k) => Some (of_decimal neg d k)
    | None => None
    end.

(** *** Rendering *)

Fixpoint zeros (n : nat) : string :=
  match n with
  | O => EmptyString
  | S n' => String "0" (zeros n')
  end.

Definition sign_str (neg : bool) : string := if neg then "-" else "".

(** [round(num / den)] to the nearest integer, ties to even. *)
Definition div_half_even (num den : Z) : Z :=
  let q := num / den in
  let r := num mod den in
  match 2 * r ?= den with
  | Lt => q
  | Gt => q + 1
  | Eq => if Z.even q then q else q + 1
  end.

(** The value [m * 2^e] as a fraction. *)
Definition fraction (m : positive) (e : Z) : Z * Z :=
  if 0 <=? e then (Zpos m * 2 ^ e, 1) else (Zpos m, 2 ^ (- e)).

(** [f"{x:.8f}"] *)
Definition format_8f (x : float) : string :=
  match x with
  | S754_nan => "nan"
  | S754_infinity s => sign_str s ++ "inf"
  | S754_zero s => sign_str s ++ "0.00000000"
  | S754_finite s m e =>
      let (num, den) := fraction m e in
      let scaled := div_half_even (num * 10 ^ 8) den in
      sign_str s ++ PyInt.digits (scaled / 10 ^ 8) ++ "."
        ++ PyInt.padded 8 (scaled mod 10 ^ 8) ""
  end.

(** [num / den < 10^k] *)
Definition below_pow10 (num den k : Z) : bool :=
  if 0 <=? k then num <? den * 10 ^ k else num * 10 ^ (- k) <? den.

(** The least [k], from [k0] on, with [num / den < 10^k]. *)
Fixpoint decpt_from (fuel : nat) (num den k0 : Z) : Z :=
  match fuel with
  | O => k0
  | S fuel' =>
      if below_pow10 num den k0 then k0 else decpt_from fuel' num den (k0 + 1)
  end.

(** The position of the decimal point of [num / den]:
    [10^(decpt-1) <= num/den < 10^decpt]. The search starts two below an
    estimate from the binary lengths. *)
Definition decpt (num den : Z) : Z :=
  let bits := Z.log2 num - Z.log2 den in
  decpt_from 8 num den (bits * 30103 / 100000 - 2).

Definition same_float (m : positive) (e : Z) (y : float) : bool :=
  match y with
  | S754_finite false m' e' => Pos.eqb m m' && Z.eqb e e'
  | _ => false
  end.

(** The shortest decimal [d * 10^k] that [float] reads back as [m * 2^e],
    the nearest one among the shortest: with [n] digits only the two
    neighbours of the value can qualify. *)
Fixpoint shortest_from (fuel : nat) (n : Z) (m : positive) (e : Z)
    (num den dp : Z) : Z * Z :=
  let k := dp - n in
  let a := if 0 <=? k then num else num * 10 ^ (- k) in
  let b := if 0 <=? k then den * 10 ^ k else den in
  let lo := a / b in
  let hi := lo + 1 in
  let near := div_half_even a b in
  match fuel with
  | O => (near, k)
  | S fuel' =>
      let lo_ok := same_float m e (of_decimal false lo k) in
      let hi_ok := same_float m e (of_decimal false hi k) in
      if lo_ok && hi_ok then (near, k)
      else if lo_ok then (lo, k)
      else if hi_ok then (hi, k)
      else shortest_from fuel' (n + 1) m e num den dp
  end.

(** Drops the trailing zeros of [d * 10^k]. *)
Fixpoint trim_zeros (fuel : nat) (d k : Z) : Z * Z :=
  match fuel with
  | O => (d, k)
  | S fuel' =>
      if (d mod 10 =? 0) && (0 <? d) then trim_zeros fuel' (d / 10) (k + 1)
      else (d, k)
  end.

Definition shortest (m : positive) (e : Z) : Z * Z :=
  let (num, den) := fraction m e in
  let (d, k) := shortest_from 16 1 m e num den (decpt num den) in
  trim_zeros 17 d k.

Definition take (n : nat) (s : string) : string := String.substring 0 n s.
Definition drop (n : nat) (s : string) : string :=
  String.substring n (String.length s - n) s.

(** The exponent of the scientific form: a sign and at least two digits. *)
Definition exp_str (x : Z) : string :=
  let a := Z.abs x in
  (if x <? 0 then "-" else "+")
    ++ (if a <? 10 then "0" else "") ++ PyInt.digits a.

(** [repr(x)], which is also [str(x)] and [f"{x}"]. *)
Definition repr (x : float) : string :=
  match x with
  | S754_nan => "nan"
  | S754_infinity s => sign_str s ++ "inf"
  | S754_zero s => sign_str s ++ "0.0"
  | S754_finite s m e =>
      let (d, k) := shortest m e in
      let ds := PyInt.digits d in
      let nd := Z.of_nat (String.length ds) in
      let dp := nd + k in
      sign_str s ++
      (if (dp <=? -4) || (16 <? dp) then
         take 1 ds
           ++ (if 1 <? nd then "." ++ drop 1 ds else "")
           ++ "e" ++ exp_str (dp - 1)
       else if dp <=? 0 then "0." ++ zeros (Z.to_nat (- dp)) ++ ds
       else if dp <? nd then
         take (Z.to_nat dp) ds ++ "." ++ drop (Z.to_nat dp) ds
       else ds ++ zeros (Z.to_nat (dp - nd)) ++ ".0")
  end.

End PyFloat.

(** ** Exceptions *)

Inductive exn : Type := ValueError | IndexError.

Inductive result (A : Type) : Type :=
  | Ok (a : A)
  | Raise (e : exn).

Arguments Ok {A} a.
Arguments Raise {A} e.

Definition bind {A B} (c : result A) (k : A -> result B) : result B :=
  match c with
  | Ok a => k a
  | Raise e => Raise e
  end.

Notation "'let*' x ':=' c 'in' k" := (bind c (fun x => k))
  (at level 10, x pattern, c at level 100, k at level 200).

(** [o] when it is there, the exception [e] otherwise. *)
Definition or_raise {A} (e : exn) (o : option A) : result A :=
  match o with
  | Some a => Ok a
  | None => Raise e
  end.

(** ** The scanner and the encoder *)

Module Dump.
Import Text PyFloat.

(** The module's globals. [INPUT_DIR] and [OUTPUT_FILE] only reach
    [os.path] and [main]. *)
Record config : Type := {
  MAX_TIMESTEP : Z;
  TIMESTEP_INTERVAL : Z;
  ATOM_TYPE_MAP : gmap string string
}.

Definition default_config : config := {|
  MAX_TIMESTEP := 100000;
  TIMESTEP_INTERVAL := 100;
  ATOM_TYPE_MAP := <["1" := "C"]> (<["2" := "Si"]> (<["3" := "O"]> ∅))
|}.

(** What [os.path] makes of [dump_file]:
    [splitext(basename(dump_file))[0]] and
    [relpath(dirname(dump_file), INPUT_DIR)]. *)
Record source : Type := {
  base_name : string;
  rel_path : string
}.

(** *** [range] and [in] *)

Definition range_len (start stop step : Z) : Z :=
  if 0 <? step then
    if start <? stop then (stop - start - 1) / step + 1 else 0
  else
    if stop <? start then (start - stop - 1) / (- step) + 1 else 0.

(** [list(range(start, stop, step))]; a zero step is [ValueError]. *)
Definition range (start stop step : Z) : result (list Z) :=
  if step =? 0 then Raise ValueError
  else Ok (map (fun i => start + Z.of_nat i * step)
             (seq 0 (Z.to_nat (range_len start stop step)))).

(** [t in l] *)
Definition mem (t : Z) (l : list Z) : bool := existsb (Z.eqb t) l.

(** *** The stream *)

Definition stream : Type := list string.

(** [f.readline()]: the next line and the stream after it. *)
Definition readline (f : stream) : option string * stream :=
  match f with
  | [] => (None, [])
  | l :: f' => (Some l, f')
  end.

(** The string that [readline] returned. *)
Definition text (line : option string) : string :=
  match line with
  | Some l => l
  | None => EmptyString
  end.

(** [for _ in range(n): f.readline()] *)
Fixpoint skip_lines (n : nat) (f : stream) : stream :=
  match n with
  | O => f
  | S n' => skip_lines n' (snd (readline f))
  end.

(** [parts[i]] *)
Definition item (parts : list string) (i : nat) : result string :=
  or_raise IndexError (nth_error parts i).

(** [a, b = map(float, toks)] and [a, b, c = map(float, toks)]: a wrong
    number of values and a token that is no number are both
    [ValueError]. *)
Definition unpack2 (toks : list string) : result (float * float) :=
  match toks with
  | [a; b] =>
      match float_of_string a, float_of_string b with
      | Some x, Some y => Ok (x, y)
      | _, _ => Raise ValueError
      end
  | _ => Raise ValueError
  end.

Definition unpack3 (toks : list string) : result (float * float * float) :=
  match toks with
  | [a; b; c] =>
      match float_of_string a, float_of_string b, float_of_string c with
      | Some x, Some y, Some z => Ok (x, y, z)
      | _, _, _ => Raise ValueError
      end
  | _ => Raise ValueError
  end.

(** *** One atom line (lines 109-116) *)

(** An entry of [atoms_data]. *)
Record atom : Type := {
  mapped_type : string;
  x : float; y : float; z : float;
  fx : float; fy : float; fz : float
}.

(** [ATOM_TYPE_MAP.get(atom_type, "X")] *)
Definition type_map_get (m : gmap string string) (atom_type : string)
  : string :=
  match m !! atom_type with
  | Some label => label
  | None => "X"
  end.

(** The tuple appended to [atoms_data] and the line's [energy]. *)
Definition parse_atom (cfg : config) (line : option string)
  : result (atom * float) :=
  let parts := split (text line) in
  let* atom_type := item parts 1 in
  let mapped := type_map_get (ATOM_TYPE_MAP cfg) atom_type in
  let* (x, y, z) := unpack3 (slice parts 2 5) in
  let* (fx, fy, fz) := unpack3 (slice parts 8 11) in
  let* tok := item parts 11 in
  let* energy := or_raise ValueError (float_of_string tok) in
  Ok ({| mapped_type := mapped; x := x; y := y; z := z;
         fx := fx; fy := fy; fz := fz |}, energy).

(** The loop of lines 108-116, [n] iterations from the given
    [atoms_data] and [total_energy]. *)
Fixpoint read_atoms (cfg : config) (n : nat) (f : stream)
    (atoms_data : list atom) (total_energy : float)
  : result (list atom * float * stream) :=
  match n with
  | O => Ok (atoms_data, total_energy, f)
  | S n' =>
      let (line, f) := readline f in
      let* (a, energy) := parse_atom cfg line in
      read_atoms cfg n' f (atoms_data ++ [a]) (fadd total_energy energy)
  end.

(** *** A selected frame (lines 89-116) *)

(** The locals of the full parse that the rendering uses. *)
Record frame : Type := {
  timestep : Z;
  num_atoms : Z;
  lx : float; ly : float; lz : float;
  atoms_data : list atom;
  total_energy : float
}.

Definition parse_frame (cfg : config) (timestep : Z) (f : stream)
  : result (frame * stream) :=
  let (_, f) := readline f in
  let (line, f) := readline f in
  let* num_atoms := or_raise ValueError (PyInt.int (strip (text line))) in
  let (_, f) := readline f in
  let (line, f) := readline f in
  let* (xlo, xhi) := unpack2 (split (text line)) in
  let (line, f) := readline f in
  let* (ylo, yhi) := unpack2 (split (text line)) in
  let (line, f) := readline f in
  let* (zlo, zhi) := unpack2 (split (text line)) in
  let lx := fsub xhi xlo in
  let ly := fsub yhi ylo in
  let lz := fsub zhi zlo in
  let (_, f) := readline f in
  let* (atoms_data, total_energy, f) :=
    read_atoms cfg (Z.to_nat num_atoms) f [] zero in
  Ok ({| timestep := timestep; num_atoms := num_atoms;
         lx := lx; ly := ly; lz := lz;
         atoms_data := atoms_data; total_energy := total_energy |}, f).

(** *** Rendering (lines 119-134) *)

Definition category (src : source) (timestep : Z) : string :=
  if negb (String.eqb (rel_path src) ".") then
    rel_path src ++ "/" ++ base_name src ++ "-" ++ PyInt.str timestep
  else base_name src ++ "-" ++ PyInt.str timestep.

(** The text between the quotes of [Lattice]. *)
Definition lattice (fr : frame) : string :=
  repr (lx fr) ++ " 0.0 0.0 0.0 " ++ repr (ly fr) ++ " 0.0 0.0 0.0 "
    ++ repr (lz fr).

Definition metadata_line (src : source) (fr : frame) : string :=
  "Lattice=" ++ dq ++ lattice fr ++ dq ++ " "
    ++ "Properties=species:S:1:pos:R:3:forces:R:3 "
    ++ "name=Amorphous_Bulk category=" ++ category src (timestep fr) ++ " "
    ++ "energy=" ++ repr (total_energy fr) ++ " pbc=" ++ dq ++ "T T T" ++ dq.

Definition atom_line (a : atom) : string :=
  mapped_type a ++ " " ++ format_8f (x a) ++ " " ++ format_8f (y a) ++ " "
    ++ format_8f (z a) ++ " " ++ format_8f (fx a) ++ " "
    ++ format_8f (fy a) ++ " " ++ format_8f (fz a).

Definition frame_content (src : source) (fr : frame) : list string :=
  [PyInt.str (num_atoms fr); metadata_line src fr]
    ++ map atom_line (atoms_data fr).

(** The block appended to [results]. *)
Definition render (src : source) (fr : frame) : string :=
  join nl (frame_content src fr).

(** *** A frame that is not wanted (lines 81-87) *)

(** How the skip path leaves the loop body: by [break] or by [continue]. *)
Inductive skipped : Type :=
  | SkipBreak
  | SkipContinue (f : stream).

Definition skip_frame (f : stream) : result skipped :=
  let f := skip_lines 6 f in
  let (line, f) := readline f in
  match line with
  | None => Ok SkipBreak
  | Some _ =>
      let (line, f) := readline f in
      let* tok := item (split (text line)) 0 in
      let* num_atoms := or_raise ValueError (PyInt.int tok) in
      Ok (SkipContinue (skip_lines (Z.to_nat num_atoms) f))
  end.

(** *** The loop (lines 69-134) *)

(** How one iteration of [while True] ends. *)
Inductive outcome : Type :=
  | Continue (f : stream) (results : list string)
  | Break (results : list string)
  | Raised (e : exn).

Definition iteration (cfg : config) (src : source) (desired : list Z)
    (f : stream) (results : list string) : outcome :=
  let (line, f) := readline f in
  match line with
  | None => Break results
  | Some line =>
      if negb (contains "ITEM: TIMESTEP" line) then Continue f results
      else
        let (tline, f) := readline f in
        match PyInt.int (strip (text tline)) with
        | None => Raised ValueError
        | Some timestep =>
            if negb (mem timestep desired) then
              match skip_frame f with
              | Raise e => Raised e
              | Ok SkipBreak => Break results
              | Ok (SkipContinue f) => Continue f results
              end
            else
              match parse_frame cfg timestep f with
              | Raise e => Raised e
              | Ok (fr, f) => Continue f (results ++ [render src fr])
              end
        end
  end.

(** What a call does: it returns [results], raises, or, in the model
    only, runs out of iterations. *)
Inductive run : Type :=
  | Returns (results : list string)
  | Raises (e : exn)
  | OutOfFuel.

Fixpoint loop (fuel : nat) (cfg : config) (src : source) (desired : list Z)
    (f : stream) (results : list string) : run :=
  match fuel with
  | O => OutOfFuel
  | S fuel' =>
      match iteration cfg src desired f results with
      | Continue f' results' => loop fuel' cfg src desired f' results'
      | Break results' => Returns results'
      | Raised e => Raises e
      end
  end.

(** [process_dump_file(dump_file)], on the lines of the file. Every
    iteration but the last reads a line, so one more iteration than there
    are lines is enough. *)
Definition process_dump_file (cfg : config) (src : source) (file : stream)
  : run :=
  match range 0 (MAX_TIMESTEP cfg + 1) (TIMESTEP_INTERVAL cfg) with
  | Raise e => Raises e
  | Ok desired_timesteps =>
      loop (S (length file)) cfg src desired_timesteps file []
  end.

End Dump.

(** ** What the statements below speak of *)

Module Props.
Import Text PyFloat Dump.

(** The state of the loop between two iterations: the lines not yet read
    and [results]. *)
Definition state : Type := (stream * list string)%type.

(** [reaches s s']: the loop, started in [s], stands in [s'] at the top of
    some later iteration (or at once). *)
Inductive reaches (cfg : config) (src : source) (desired : list Z)
  : state -> state -> Prop :=
  | reaches_here s : reaches cfg src desired s s
  | reaches_step f results f' results' s :
      iteration cfg src desired f results = Continue f' results' ->
      reaches cfg src desired (f', results') s ->
      reaches cfg src desired (f, results) s.

(** The nine lines of a frame before its atom lines, in the layout the
    source expects. *)
Definition header (timestep count xb yb zb : string) : stream :=
  ["ITEM: TIMESTEP"; timestep; "ITEM: NUMBER OF ATOMS"; count;
   "ITEM: BOX BOUNDS pp pp pp"; xb; yb; zb;
   "ITEM: ATOMS id type x y z vx vy vz fx fy fz atom_energy"].

(** The energy column of an atom line: [float(parts[11])]. *)
Definition energy_of (line : string) : option float :=
  match nth_error (split line) 11 with
  | Some tok => float_of_string tok
  | None => None
  end.

(** The line of the block that an atom line of the dump becomes. *)
Definition rendered_atom (cfg : config) (line : string) : option string :=
  match parse_atom cfg (Some line) with
  | Ok (a, _) => Some (atom_line a)
  | Raise _ => None
  end.

(** Two atom lines that differ at most in column 0 (the atom id) and
    columns 5 to 7 (the velocity): every other column is there in both
    or in neither, and is the same. *)
Definition hidden_column (i : nat) : bool :=
  match i with
  | 0 | 5 | 6 | 7 => true
  | _ => false
  end%nat.

Definition same_but_hidden (l1 l2 : string) : Prop :=
  forall i, hidden_column i = false ->
            nth_error (split l1) i = nth_error (split l2) i.

(** *** Reading a block back *)

Fixpoint all_chars (p : ascii -> bool) (s : string) : bool :=
  match s with
  | EmptyString => true
  | String c s' => p c && all_chars p s'
  end.

(** Fixed-point notation with eight decimals: an optional minus, one
    digit or more, a point, eight digits. *)
Definition is_fixed8 (s : string) : bool :=
  let body := match s with String "-" s' => s' | _ => s end in
  match break_at is_dot body with
  | (ip, Some fp) =>
      negb (String.eqb ip "") && all_chars isdigit ip
      && (String.length fp =? 8)%nat && all_chars isdigit fp
  | (_, None) => false
  end.

(** [block.split("\n")] *)
Fixpoint lines_from (cur : string) (s : string) : list string :=
  match s with
  | EmptyString => [cur]
  | String c s' =>
      if Ascii.eqb c (ascii_of_N 10) then cur :: lines_from EmptyString s'
      else lines_from (cur ++ String c EmptyString) s'
  end.

Definition lines_of (block : string) : list string :=
  lines_from EmptyString block.

Definition is_dq (c : ascii) : bool := Ascii.eqb c (ascii_of_N 34).

(** The text between the first two double quotes of a metadata line: the
    value of [Lattice]. *)
Definition lattice_field (meta : string) : string :=
  match break_at is_dq meta with
  | (_, Some rest) => fst (break_at is_dq rest)
  | (_, None) => EmptyString
  end.

(** The value of the [energy=] key of a metadata line. *)
Definition energy_field (meta : string) : string :=
  match filter (fun tok => String.prefix "energy=" tok) (split meta) with
  | tok :: _ => drop 7 tok
  | [] => EmptyString
  end.

(** Every real number printed in a block: the nine lattice values and
    the energy of its second line, and the six numbers of each atom
    line. *)
Definition real_fields (block : string) : list string :=
  match lines_of block with
  | _ :: meta :: atoms =>
      split (lattice_field meta) ++ [energy_field meta]
        ++ concat (map (fun l => skipn 1 (split l)) atoms)
  | _ => []
  end.

(** The count on the first line of a block is the number of its atom
    lines, those after the second line. *)
Definition count_matches (block : string) : bool :=
  match lines_of block with
  | count :: _ :: atoms =>
      match PyInt.int count with
      | Some n => n =? Z.of_nat (length atoms)
      | None => false
      end
  | _ => false
  end.

(** The floats 10.0, 5.0 and 2.0. *)
Definition ten : float := of_decimal false 10 0.
Definition five : float := of_decimal false 5 0.
Definition two : float := of_decimal false 2 0.

(** The six numbers of an atom are finite. *)
Definition atom_finite (a : atom) : bool :=
  is_finite (x a) && is_finite (y a) && is_finite (z a)
  && is_finite (fx a) && is_finite (fy a) && is_finite (fz a).

(** *** The dump of the end-to-end scenario *)

Definition atom1 : string := "1 1 0.5 1.5 2.5 0.1 0.2 0.3 -1.0 2.0 3.5 1.0".
Definition atom2 : string := "2 2 1.0 2.0 3.0 0.0 0.0 0.0 0.001 2.0 3.0 2.5".
Definition atom3 : string := "3 1 1.0 2.0 0.25 0.0 0.0 0.0 1.0 2.0 3.0 -0.5".

(** A frame of three atoms with the bounds (0,10), (0,5), (0,2). *)
Definition frame3 (timestep : string) : stream :=
  (header timestep "3" "0 10" "0 5" "0 2" ++ [atom1; atom2; atom3])%list.

(** A frame of one atom. *)
Definition frame1 (timestep : string) : stream :=
  (header timestep "1" "0 10" "0 5" "0 2" ++ [atom1])%list.

(** The atom lines of [frame3] with other ids and velocities. *)
Definition atom1' : string := "7 1 0.5 1.5 2.5 9.1 -0.2 1e3 -1.0 2.0 3.5 1.0".
Definition atom2' : string := "2 2 1.0 2.0 3.0 0.0 0.5 0.0 0.001 2.0 3.0 2.5".
Definition atom3' : string := "41 1 1.0 2.0 0.25 4.0 0.0 nan 1.0 2.0 3.0 -0.5".

Definition run_src : source := {| base_name := "run"; rel_path := "." |}.

End Props.

(** ** The batch: [find_dump_files] and [main] *)

Module Batch.
Import Text Dump.

(** [s.endswith(suffix)]: [suffix] is [s] or the end of what follows its
    first character. *)
Fixpoint endswith (suffix s : string) : bool :=
  String.eqb suffix s
  || match s with
     | EmptyString => false
     | String _ s' => endswith suffix s'
     end.

(** [os.path.join(a, b)] of [posixpath]: an absolute [b] replaces [a];
    otherwise one separator stands between them, unless [a] is empty or
    ends with one. *)
Definition path_join (a b : string) : string :=
  if String.prefix "/" b then b
  else if String.eqb a "" || endswith "/" a then a ++ b
  else a ++ "/" ++ b.

(** One triple of [os.walk(root_dir)]: [dirpath], [dirnames],
    [filenames]. The walk itself is the library's and an input here. *)
Definition walked : Type := (string * list string * list string)%type.

(** The inner loop of lines 58-60: the files of one directory. *)
Definition scan_directory (dirpath : string) (filenames : list string)
    (dump_files : list string) : list string :=
  fold_left
    (fun dump_files filename =>
       if endswith ".dump" filename
       then (dump_files ++ [path_join dirpath filename])%list
       else dump_files)
    filenames dump_files.

(** [find_dump_files(root_dir)], on what [os.walk(root_dir)] yields. *)
Definition find_dump_files (walk : list walked) : list string :=
  fold_left
    (fun dump_files '(dirpath, _, filenames) =>
       scan_directory dirpath filenames dump_files)
    walk [].

(** What [main] does that can be seen from outside, in order: the four
    messages it prints, with the numbers they show, and the one write of
    [OUTPUT_FILE], opened with mode [w], with the whole text written. *)
Inductive event : Type :=
  | PrintNoFiles
  | PrintFound (files : nat)
  | PrintMapping
  | WriteOutput (text : string)
  | PrintComplete (files frames : nat).

(** How [main] ends: it returns, or [pool.map] raises what one of the
    failing files raised (which of them is not fixed by the code). *)
Inductive ending : Type :=
  | Finished
  | Failed (candidates : list exn).

(** The exceptions among the results of the workers, in file order. *)
Fixpoint failures (runs : list run) : list exn :=
  match runs with
  | [] => []
  | Raises e :: rest => e :: failures rest
  | _ :: rest => failures rest
  end.

(** The results of the workers when every one of them returned. *)
Fixpoint returned (runs : list run) : option (list (list string)) :=
  match runs with
  | [] => Some []
  | Returns results :: rest =>
      match returned rest with
      | Some all => Some (results :: all)
      | None => None
      end
  | _ :: rest => None
  end.

(** The loops of lines 155-159: the text written so far and
    [total_frames]. *)
Definition write_file (file_results : list string) (st : string * nat)
  : string * nat :=
  fold_left
    (fun '(text, total_frames) frame =>
       (text ++ (frame ++ nl), S total_frames))
    file_results st.

Definition write_all (all_results : list (list string)) : string * nat :=
  fold_left (fun st file_results => write_file file_results st)
    all_results (EmptyString, O).

(** [main()]. [walk] is [os.walk(INPUT_DIR)]; [describe] is what
    [os.path] makes of a path and [read] the lines of the file at a
    path, every file found being readable. *)
Definition main (cfg : config) (walk : list walked)
    (describe : string -> source) (read : string -> stream)
  : list event * ending :=
  let dump_files := find_dump_files walk in
  match dump_files with
  | [] => ([PrintNoFiles], Finished)
  | _ =>
      let runs :=
        map (fun dump_file =>
               process_dump_file cfg (describe dump_file) (read dump_file))
          dump_files in
      match returned runs with
      | None =>
          ([PrintFound (length dump_files); PrintMapping],
           Failed (failures runs))
      | Some all_results =>
          let (text, total_frames) := write_all all_results in
          ([PrintFound (length dump_files); PrintMapping; WriteOutput text;
            PrintComplete (length dump_files) total_frames], Finished)
      end
  end.

End Batch.

(** ** Dumps made of whole frames *)

Module Layout.
Import Text PyFloat Dump.

(** The lines of one frame of a dump, by their role. *)
Record frame_text : Type := {
  start_line : string;
  timestep_line : string;
  count_header : string;
  count_line : string;
  bounds_header : string;
  xb_line : string;
  yb_line : string;
  zb_line : string;
  atoms_header : string;
  atom_lines : list string
}.

(** The lines after the timestep line. *)
Definition body (ft : frame_text) : stream :=
  (count_header ft :: count_line ft :: bounds_header ft :: xb_line ft
     :: yb_line ft :: zb_line ft :: atoms_header ft :: atom_lines ft)%list.

Definition frame_lines (ft : frame_text) : stream :=
  (start_line ft :: timestep_line ft :: body ft)%list.

Definition dump_lines (frames : list frame_text) : stream :=
  concat (map frame_lines frames).

Definition is_start (line : string) : bool := contains "ITEM: TIMESTEP" line.

(** What the skip path needs of a frame to end inside it: a first atom
    line whose first field is an integer, no larger than the number of
    atom lines after it, and no frame-start text in those lines. *)
Definition skippable (ft : frame_text) : bool :=
  match atom_lines ft with
  | [] => false
  | first :: more =>
      match nth_error (split first) 0 with
      | None => false
      | Some tok =>
          match PyInt.int tok with
          | None => false
          | Some k =>
              (Z.to_nat k <=? length more)%nat
              && forallb (fun l => negb (is_start l)) more
          end
      end
  end.

(** A frame that the loop passes without losing its place: its first
    line starts a frame, its timestep is an integer, and either it is
    wanted and the full parse reads exactly its lines, or it is not
    wanted and the skip path ends inside it. *)
Definition scannable (cfg : config) (desired : list Z) (ft : frame_text)
  : bool :=
  is_start (start_line ft)
  && match PyInt.int (strip (timestep_line ft)) with
     | None => false
     | Some t =>
         if mem t desired then
           match parse_frame cfg t (body ft) with
           | Ok (_, []) => true
           | _ => false
           end
         else skippable ft
     end.

(** The blocks that a frame adds to [results]: its rendering when it is
    wanted and parses, nothing otherwise. *)
Definition blocks_of (cfg : config) (src : source) (desired : list Z)
    (ft : frame_text) : list string :=
  match PyInt.int (strip (timestep_line ft)) with
  | None => []
  | Some t =>
      if mem t desired then
        match parse_frame cfg t (body ft) with
        | Ok (fr, _) => [render src fr]
        | Raise _ => []
        end
      else []
  end.

(** The text of a file of blocks, each followed by a line feed. *)
Fixpoint blocks_text (blocks : list string) : string :=
  match blocks with
  | [] => EmptyString
  | block :: rest => block ++ nl ++ blocks_text rest
  end.

(** The scenario frame, with a given timestep and atom lines. *)
Definition scenario (timestep : string) (atoms : list string) : frame_text := {|
  start_line := "ITEM: TIMESTEP";
  timestep_line := timestep;
  count_header := "ITEM: NUMBER OF ATOMS";
  count_line := PyInt.str (Z.of_nat (length atoms));
  bounds_header := "ITEM: BOX BOUNDS pp pp pp";
  xb_line := "0 10"; yb_line := "0 5"; zb_line := "0 2";
  atoms_header := "ITEM: ATOMS id type x y z vx vy vz fx fy fz atom_energy";
  atom_lines := atoms
|}.

(** A string without a line feed. *)
Definition not_feed (c : ascii) : bool := negb (Ascii.eqb c (ascii_of_N 10)).
Definition no_feed (s : string) : bool := Props.all_chars not_feed s.

(** An atom line of a type that the default map does not have. *)
Definition atom_unmapped : string :=
  "5 7 1.0 2.0 3.0 0.0 0.0 0.0 0.001 2.0 3.0 2.5".

(** An atom line with a position that is not finite. *)
Definition atom_nan : string :=
  "4 3 nan 2.0 3.0 0.0 0.0 0.0 1.0 -inf 3.0 0.5".

(** A type map with a label of two lines. *)
Definition feed_config : config := {|
  MAX_TIMESTEP := 100000;
  TIMESTEP_INTERVAL := 100;
  ATOM_TYPE_MAP := <["1" := "C" ++ nl ++ "C"]> ∅
|}.

End Layout.

(** ** Properties *)

Import Text PyFloat Dump Props Batch Layout.

(** *** Strings *)

Lemma append_cons (ch : ascii) (a b : string) :
  String ch a ++ b = String ch (a ++ b).
Proof. reflexivity. Qed.

Lemma append_assoc (a b c : string) : (a ++ b) ++ c = a ++ b ++ c.
Proof.
  induction a as [|ch a IH]; [reflexivity|].
  rewrite !append_cons, IH. reflexivity.
Qed.

Lemma append_nil_r (a : string) : a ++ "" = a.
Proof.
  induction a as [|ch a IH]; [reflexivity|].
  rewrite append_cons, IH. reflexivity.
Qed.

(** *** The stream only moves forward *)

Lemma skip_lines_skipn (n : nat) (f : stream) : skip_lines n f = skipn n f.
Proof.
  revert f. induction n as [|n IH]; intros f.
  - reflexivity.
  - destruct f as [|l f].
    + simpl. rewrite IH. now destruct n.
    + simpl. apply IH.
Qed.

Lemma skip_lines_length (n : nat) (f : stream) :
  (length (skip_lines n f) <= length f)%nat.
Proof.
  rewrite skip_lines_skipn, length_skipn. lia.
Qed.

Lemma readline_length (f f' : stream) (line : option string) :
  readline f = (line, f') -> (length f' <= length f)%nat.
Proof.
  destruct f as [|l f]; simpl; intros [= <- <-]; simpl; lia.
Qed.

Lemma readline_some (f f' : stream) (l : string) :
  readline f = (Some l, f') -> f = l :: f'.
Proof.
  destruct f as [|l0 f]; simpl; intros [= <- <-]; reflexivity.
Qed.

(** What a successful run of the atoms loop has read and computed: [n]
    lines, each of them a well-formed atom line; their atoms appended in
    order; their energies added from the left. *)
Lemma read_atoms_ok (cfg : config) (n : nat) :
  forall (f : stream) (acc : list atom) (tot : float)
         (atoms : list atom) (total : float) (rest : stream),
    read_atoms cfg n f acc tot = Ok (atoms, total, rest) ->
    exists (lines : list string) (parsed : list (atom * float)),
      f = (lines ++ rest)%list /\ length lines = n /\
      Forall2 (fun l p => parse_atom cfg (Some l) = Ok p) lines parsed /\
      atoms = (acc ++ map fst parsed)%list /\
      total = fold_left fadd (map snd parsed) tot.
Proof.
  induction n as [|n IH]; intros f acc tot atoms total rest H.
  - simpl in H. injection H as <- <- <-.
    exists [], []. rewrite app_nil_r. repeat split; constructor.
  - simpl in H. destruct (readline f) as [line f1] eqn:Hr.
    destruct (parse_atom cfg line) as [[a en]|e] eqn:Hp; simpl in H;
      [|discriminate].
    destruct line as [l|].
    + apply readline_some in Hr. subst f.
      destruct (IH _ _ _ _ _ _ H) as (lines & parsed & -> & Hlen & Hall & -> & ->).
      exists (l :: lines), ((a, en) :: parsed). simpl.
      rewrite <- app_assoc. simpl. repeat split; auto.
    + discriminate.
Qed.

(** The loop of [n] atoms raises when fewer than [n] lines are left. *)
Lemma read_atoms_short (cfg : config) (n : nat) :
  forall (f : stream) (acc : list atom) (tot : float),
    (length f < n)%nat ->
    exists e, read_atoms cfg n f acc tot = Raise e.
Proof.
  induction n as [|n IH]; intros f acc tot Hlen; [lia|].
  simpl. destruct f as [|l f]; simpl.
  - exists IndexError. reflexivity.
  - destruct (parse_atom cfg (Some l)) as [[a en]|e]; simpl.
    + apply IH. simpl in Hlen. lia.
    + exists e. reflexivity.
Qed.

Lemma parse_frame_length (cfg : config) (t : Z) (f rest : stream) (fr : frame) :
  parse_frame cfg t f = Ok (fr, rest) -> (length rest <= length f)%nat.
Proof.
  unfold parse_frame.
  destruct (readline f) as [l1 f1] eqn:H1.
  destruct (readline f1) as [l2 f2] eqn:H2.
  destruct (or_raise ValueError (PyInt.int (strip (text l2)))) as [n|]; simpl;
    [|discriminate].
  destruct (readline f2) as [l3 f3] eqn:H3.
  destruct (readline f3) as [l4 f4] eqn:H4.
  destruct (unpack2 (split (text l4))) as [[xlo xhi]|]; simpl; [|discriminate].
  destruct (readline f4) as [l5 f5] eqn:H5.
  destruct (unpack2 (split (text l5))) as [[ylo yhi]|]; simpl; [|discriminate].
  destruct (readline f5) as [l6 f6] eqn:H6.
  destruct (unpack2 (split (text l6))) as [[zlo zhi]|]; simpl; [|discriminate].
  destruct (readline f6) as [l7 f7] eqn:H7.
  destruct (read_atoms cfg (Z.to_nat n) f7 [] zero) as [[[at_ tot] f8]|] eqn:Ha;
    simpl; [|discriminate].
  intros [= <- <-].
  apply read_atoms_ok in Ha. destruct Ha as (lines & parsed & -> & _).
  apply readline_length in H1, H2, H3, H4, H5, H6, H7.
  rewrite length_app in H7. lia.
Qed.

Lemma skip_frame_length (f rest : stream) :
  skip_frame f = Ok (SkipContinue rest) -> (length rest <= length f)%nat.
Proof.
  unfold skip_frame.
  destruct (readline (skip_lines 6 f)) as [l1 f1] eqn:H1.
  destruct l1 as [l1|]; [|discriminate].
  destruct (readline f1) as [l2 f2] eqn:H2.
  destruct (item (split (text l2)) 0) as [tok|]; simpl; [|discriminate].
  destruct (or_raise ValueError (PyInt.int tok)) as [n|]; simpl; [|discriminate].
  intros [= <-].
  apply readline_length in H1, H2.
  pose proof (skip_lines_length 6 f).
  pose proof (skip_lines_length (Z.to_nat n) f2). lia.
Qed.

(** An iteration that continues has read a line. *)
Lemma iteration_shrinks (cfg : config) (src : source) (desired : list Z)
    (f f' : stream) (results results' : list string) :
  iteration cfg src desired f results = Continue f' results' ->
  (length f' < length f)%nat.
Proof.
  unfold iteration. destruct f as [|line f]; simpl; [discriminate|].
  destruct (contains "ITEM: TIMESTEP" line); simpl.
  - destruct (readline f) as [tline f1] eqn:H1.
    apply readline_length in H1.
    destruct (PyInt.int (strip (text tline))) as [t|]; [|discriminate].
    destruct (mem t desired); simpl.
    + destruct (parse_frame cfg t f1) as [[fr f2]|] eqn:Hp; [|discriminate].
      intros [= <- <-]. apply parse_frame_length in Hp. lia.
    + destruct (skip_frame f1) as [[|f2]|] eqn:Hs; try discriminate.
      intros [= <- <-]. apply skip_frame_length in Hs. lia.
  - intros [= <- <-]. lia.
Qed.

(** With more iterations than lines the loop ends, and how many more
    there are does not matter. *)
Lemma loop_fuel_irrelevant (cfg : config) (src : source) (desired : list Z) :
  forall (fuel1 fuel2 : nat) (f : stream) (results : list string),
    (length f < fuel1)%nat -> (length f < fuel2)%nat ->
    loop fuel1 cfg src desired f results = loop fuel2 cfg src desired f results
    /\ loop fuel1 cfg src desired f results <> OutOfFuel.
Proof.
  induction fuel1 as [|fuel1 IH]; intros fuel2 f results H1 H2; [lia|].
  destruct fuel2 as [|fuel2]; [lia|].
  simpl.
  destruct (iteration cfg src desired f results) as [f' r'| r' | e] eqn:Hi.
  - apply iteration_shrinks in Hi. apply IH; lia.
  - split; [reflexivity|discriminate].
  - split; [reflexivity|discriminate].
Qed.

Lemma loop_enough_fuel (cfg : config) (src : source) (desired : list Z)
    (fuel : nat) (f : stream) (results : list string) :
  (length f < fuel)%nat ->
  loop fuel cfg src desired f results
  = loop (S (length f)) cfg src desired f results.
Proof.
  intros H. apply loop_fuel_irrelevant; lia.
Qed.

(** X1. [process_dump_file] returns or raises: the iterations it is given are
    enough on every file. *)
Lemma process_dump_file_total (cfg : config) (src : source) (file : stream) :
  process_dump_file cfg src file <> OutOfFuel.
Proof.
  unfold process_dump_file.
  destruct (range 0 (MAX_TIMESTEP cfg + 1) (TIMESTEP_INTERVAL cfg)) as [d|e].
  - apply (loop_fuel_irrelevant cfg src d _ (S (length file))); lia.
  - discriminate.
Qed.

(** The run from a state the loop reaches is the rest of the run. *)
Lemma loop_reaches (cfg : config) (src : source) (desired : list Z)
    (s s' : state) :
  reaches cfg src desired s s' ->
  loop (S (length (fst s))) cfg src desired (fst s) (snd s)
  = loop (S (length (fst s'))) cfg src desired (fst s') (snd s').
Proof.
  induction 1 as [s|f r f' r' s Hi Hr IH]; [reflexivity|].
  simpl fst in *. simpl snd in *.
  rewrite <- IH.
  change (loop (S (length f)) cfg src desired f r)
    with (match iteration cfg src desired f r with
          | Continue f1 r1 => loop (length f) cfg src desired f1 r1
          | Break r1 => Returns r1
          | Raised e => Raises e
          end).
  rewrite Hi. apply iteration_shrinks in Hi.
  apply loop_enough_fuel. exact Hi.
Qed.

Lemma loop_from (cfg : config) (src : source) (desired : list Z)
    (f f' : stream) (results results' : list string) :
  reaches cfg src desired (f, results) (f', results') ->
  loop (S (length f)) cfg src desired f results
  = loop (S (length f')) cfg src desired f' results'.
Proof.
  intros H. exact (loop_reaches cfg src desired _ _ H).
Qed.

(** *** Which timesteps are wanted *)

Lemma mem_range_iff (start len step t : Z) :
  mem t (map (fun i => start + Z.of_nat i * step) (seq 0 (Z.to_nat len))) = true
  <-> exists i, 0 <= i < len /\ t = start + i * step.
Proof.
  unfold mem. rewrite existsb_exists. split.
  - intros (v & Hin & Heq). apply in_map_iff in Hin.
    destruct Hin as (i & <- & Hi). apply in_seq in Hi.
    apply Z.eqb_eq in Heq. exists (Z.of_nat i). split; lia.
  - intros (i & Hi & ->). exists (start + i * step). split.
    + apply in_map_iff. exists (Z.to_nat i). split.
      * rewrite Z2Nat.id by lia. reflexivity.
      * apply in_seq. lia.
    + apply Z.eqb_refl.
Qed.

(** [range(0, m + 1, s)] for a positive [s], and what it holds. *)
Lemma range_selects (s m t : Z) :
  0 < s ->
  exists desired_timesteps,
    range 0 (m + 1) s = Ok desired_timesteps /\
    (mem t desired_timesteps = true <-> 0 <= t <= m /\ t mod s = 0).
Proof.
  intros Hs. unfold range.
  destruct (s =? 0) eqn:E; [apply Z.eqb_eq in E; lia|].
  eexists. split; [reflexivity|].
  rewrite mem_range_iff. unfold range_len.
  destruct (0 <? s) eqn:E1; [|apply Z.ltb_ge in E1; lia].
  destruct (0 <? m + 1) eqn:E2.
  - apply Z.ltb_lt in E2.
    replace (m + 1 - 0 - 1) with m by lia.
    split.
    + intros (i & Hi & ->). simpl.
      assert (i <= m / s) by lia.
      assert (s * (m / s) <= m) by (apply Z.mul_div_le; lia).
      split; [nia|]. apply Z.mod_mul. lia.
    + intros [Ht Hmod]. exists (t / s).
      assert (t = s * (t / s)) by (apply Z.div_exact; lia).
      assert (t / s <= m / s) by (apply Z.div_le_mono; lia).
      assert (0 <= t / s) by (apply Z.div_pos; lia).
      split; lia.
  - apply Z.ltb_ge in E2. split.
    + intros (i & Hi & _). lia.
    + intros [Ht _]. lia.
Qed.


(** The two branches of an iteration that stands on a frame-start line:
    the full parse when the timestep is in the list, the skip path when it
    is not. *)
Lemma iteration_on_frame (cfg : config) (src : source) (desired : list Z)
    (marker tline : string) (t : Z) (f : stream) (results : list string) :
  contains "ITEM: TIMESTEP" marker = true ->
  PyInt.int (strip tline) = Some t ->
  iteration cfg src desired (marker :: tline :: f) results
  = if mem t desired then
      match parse_frame cfg t f with
      | Raise e => Raised e
      | Ok (fr, f') => Continue f' (results ++ [render src fr])
      end
    else
      match skip_frame f with
      | Raise e => Raised e
      | Ok SkipBreak => Break results
      | Ok (SkipContinue f') => Continue f' results
      end.
Proof.
  intros Hm Ht. unfold iteration. simpl. rewrite Hm. simpl. rewrite Ht.
  destruct (mem t desired); reflexivity.
Qed.

(** *** The two paths, by line number *)

(** The full parse in terms of the lines of the frame, counted from the
    line after the timestep: the count is on line 1, the bounds are on
    lines 3 to 5, the atoms start at line 7. *)
Lemma parse_frame_eq (cfg : config) (t : Z) (f : stream) :
  parse_frame cfg t f =
  let* n := or_raise ValueError (PyInt.int (strip (text (nth_error f 1)))) in
  let* (xlo, xhi) := unpack2 (split (text (nth_error f 3))) in
  let* (ylo, yhi) := unpack2 (split (text (nth_error f 4))) in
  let* (zlo, zhi) := unpack2 (split (text (nth_error f 5))) in
  let* (atoms, total, f') := read_atoms cfg (Z.to_nat n) (skipn 7 f) [] zero in
  Ok ({| timestep := t; num_atoms := n;
         lx := fsub xhi xlo; ly := fsub yhi ylo; lz := fsub zhi zlo;
         atoms_data := atoms; total_energy := total |}, f').
Proof.
  unfold parse_frame.
  do 7 (destruct f as [|? f]; [reflexivity|]). reflexivity.
Qed.

(** The skip path in the same terms: it stops the loop when line 6, the
    atoms header, is missing; it takes its count from the first field of
    line 7, the first atom line, and skips that many lines after it. *)
Lemma skip_frame_eq (f : stream) :
  skip_frame f =
  match nth_error f 6 with
  | None => Ok SkipBreak
  | Some _ =>
      let* tok := item (split (text (nth_error f 7))) 0 in
      let* n := or_raise ValueError (PyInt.int tok) in
      Ok (SkipContinue (skipn (Z.to_nat n) (skipn 8 f)))
  end.
Proof.
  unfold skip_frame.
  do 7 (destruct f as [|? f]; [reflexivity|]).
  simpl skip_lines. simpl nth_error.
  destruct f as [|l7 f]; simpl; [reflexivity|].
  destruct (item (split l7) 0) as [tok|]; simpl; [|reflexivity].
  destruct (or_raise ValueError (PyInt.int tok)) as [n|]; simpl; [|reflexivity].
  rewrite skip_lines_skipn. reflexivity.
Qed.

(** What a successful full parse has read and computed. *)
Lemma parse_frame_ok (cfg : config) (t : Z) (f rest : stream) (fr : frame) :
  parse_frame cfg t f = Ok (fr, rest) ->
  exists (lines : list string) (parsed : list (atom * float)),
    skipn 7 f = (lines ++ rest)%list /\
    length lines = Z.to_nat (num_atoms fr) /\
    Forall2 (fun l p => parse_atom cfg (Some l) = Ok p) lines parsed /\
    atoms_data fr = map fst parsed /\
    total_energy fr = fold_left fadd (map snd parsed) zero /\
    timestep fr = t /\
    PyInt.int (strip (text (nth_error f 1))) = Some (num_atoms fr).
Proof.
  rewrite parse_frame_eq.
  destruct (PyInt.int (strip (text (nth_error f 1)))) as [n|];
    cbn [bind or_raise]; [|intros [=]].
  destruct (unpack2 (split (text (nth_error f 3)))) as [[xlo xhi]|];
    cbn [bind]; [|intros [=]].
  destruct (unpack2 (split (text (nth_error f 4)))) as [[ylo yhi]|];
    cbn [bind]; [|intros [=]].
  destruct (unpack2 (split (text (nth_error f 5)))) as [[zlo zhi]|];
    cbn [bind]; [|intros [=]].
  destruct (read_atoms cfg (Z.to_nat n) (skipn 7 f) [] zero)
    as [[[atoms total] f']|] eqn:Ha; cbn [bind]; [|intros [=]].
  intros [= <- <-]. cbn [num_atoms atoms_data total_energy timestep].
  apply read_atoms_ok in Ha.
  destruct Ha as (lines & parsed & Hf & Hlen & Hall & Hat & Htot).
  exists lines, parsed. repeat split; assumption.
Qed.

(** *** The type map *)


(** *** The energy of a frame *)

Lemma parse_atom_energy (cfg : config) (l : string) (a : atom) (e : float) :
  parse_atom cfg (Some l) = Ok (a, e) -> energy_of l = Some e.
Proof.
  unfold parse_atom, energy_of, item. cbn [text].
  destruct (nth_error (split l) 1) as [ty|]; cbn [bind or_raise]; [|intros [=]].
  destruct (unpack3 (slice (split l) 2 5)) as [[[x0 y0] z0]|];
    cbn [bind]; [|intros [=]].
  destruct (unpack3 (slice (split l) 8 11)) as [[[x1 y1] z1]|];
    cbn [bind]; [|intros [=]].
  destruct (nth_error (split l) 11) as [tok|]; cbn [bind or_raise];
    [|intros [=]].
  destruct (float_of_string tok) as [en|]; cbn [bind or_raise]; [|intros [=]].
  intros [= _ <-]. reflexivity.
Qed.

Lemma parsed_energies (cfg : config) (lines : list string)
    (parsed : list (atom * float)) :
  Forall2 (fun l p => parse_atom cfg (Some l) = Ok p) lines parsed ->
  map energy_of lines = map Some (map snd parsed).
Proof.
  induction 1 as [|l [a e] lines parsed Hp _ IH]; [reflexivity|].
  simpl. rewrite IH. apply parse_atom_energy in Hp. rewrite Hp. reflexivity.
Qed.

(** C8. The energy of a selected frame is the sum of the energy column
    (field 11) of its atom lines, taken from [0.0] in the order of the
    lines, each addition a binary64 addition; that sum is what the
    metadata line shows after [energy=]. *)
Theorem total_energy_in_atom_order (cfg : config) (src : source) (t : Z)
    (f rest : stream) (fr : frame) :
  parse_frame cfg t f = Ok (fr, rest) ->
  exists (lines : list string) (energies : list float),
    skipn 7 f = (lines ++ rest)%list /\
    length lines = Z.to_nat (num_atoms fr) /\
    map energy_of lines = map Some energies /\
    total_energy fr = fold_left fadd energies zero /\
    exists before,
      metadata_line src fr
      = before ++ "energy=" ++ repr (fold_left fadd energies zero)
          ++ " pbc=" ++ dq ++ "T T T" ++ dq.
Proof.
  intros H. apply parse_frame_ok in H.
  destruct H as (lines & parsed & Hf & Hlen & Hall & _ & Htot & _).
  exists lines, (map snd parsed).
  split; [exact Hf|]. split; [exact Hlen|].
  split; [exact (parsed_energies cfg lines parsed Hall)|].
  split; [exact Htot|].
  exists ("Lattice=" ++ dq ++ lattice fr ++ dq ++ " "
          ++ "Properties=species:S:1:pos:R:3:forces:R:3 "
          ++ "name=Amorphous_Bulk category=" ++ category src (timestep fr)
          ++ " ").
  unfold metadata_line. rewrite <- Htot.
  repeat rewrite append_assoc. reflexivity.
Qed.

Lemma total_energy_in_atom_order_witness :
  exists fr,
    parse_frame default_config 0 (skipn 2 (frame3 "0")) = Ok (fr, []) /\
    exists (lines : list string) (energies : list float),
      skipn 7 (skipn 2 (frame3 "0")) = (lines ++ [])%list /\
      length lines = Z.to_nat (num_atoms fr) /\
      map energy_of lines = map Some energies /\
      total_energy fr = fold_left fadd energies zero /\
      exists before,
        metadata_line run_src fr
        = before ++ "energy=" ++ repr (fold_left fadd energies zero)
            ++ " pbc=" ++ dq ++ "T T T" ++ dq.
Proof.
  eexists. split.
  - vm_compute. reflexivity.
  - apply (total_energy_in_atom_order default_config run_src 0).
    vm_compute. reflexivity.
Defined.

(** *** The lines of a block *)

Lemma parsed_rendered (cfg : config) (lines : list string)
    (parsed : list (atom * float)) :
  Forall2 (fun l p => parse_atom cfg (Some l) = Ok p) lines parsed ->
  map (rendered_atom cfg) lines = map Some (map atom_line (map fst parsed))
  /\ length lines = length parsed.
Proof.
  induction 1 as [|l [a e] lines parsed Hp _ [IH1 IH2]]; [split; reflexivity|].
  simpl. rewrite IH1, IH2. unfold rendered_atom at 1. rewrite Hp.
  split; reflexivity.
Qed.


(** *** The lattice *)

(** C5, amended. A selected frame with the bounds (0,10), (0,5), (0,2)
    has the lattice [10.0 0.0 0.0 0.0 5.0 0.0 0.0 0.0 2.0]: an edge
    length is a float and is written as [repr] writes it. *)
Theorem lattice_of_scenario_bounds (cfg : config) (src : source) (t : Z)
    (f rest : stream) (fr : frame) (sx sy sz : bool) :
  parse_frame cfg t f = Ok (fr, rest) ->
  unpack2 (split (text (nth_error f 3))) = Ok (S754_zero sx, ten) ->
  unpack2 (split (text (nth_error f 4))) = Ok (S754_zero sy, five) ->
  unpack2 (split (text (nth_error f 5))) = Ok (S754_zero sz, two) ->
  lattice fr = "10.0 0.0 0.0 0.0 5.0 0.0 0.0 0.0 2.0" /\
  exists after,
    metadata_line src fr
    = "Lattice=" ++ dq ++ "10.0 0.0 0.0 0.0 5.0 0.0 0.0 0.0 2.0" ++ dq
        ++ after.
Proof.
  intros H Hx Hy Hz. rewrite parse_frame_eq, Hx, Hy, Hz in H.
  destruct (PyInt.int (strip (text (nth_error f 1)))) as [n|];
    cbn [bind or_raise] in H; [|discriminate H].
  destruct (read_atoms cfg (Z.to_nat n) (skipn 7 f) [] zero)
    as [[[atoms total] f']|]; cbn [bind] in H; [|discriminate H].
  injection H as <- <-.
  match goal with
  | |- lattice ?fr0 = _ /\ _ =>
      assert (L : lattice fr0 = "10.0 0.0 0.0 0.0 5.0 0.0 0.0 0.0 2.0")
        by (destruct sx, sy, sz; vm_compute; reflexivity)
  end.
  split; [exact L|].
  unfold metadata_line. rewrite L. eexists. reflexivity.
Qed.

Lemma lattice_of_scenario_bounds_witness :
  exists fr,
    parse_frame default_config 0 (skipn 2 (frame3 "0")) = Ok (fr, []) /\
    lattice fr = "10.0 0.0 0.0 0.0 5.0 0.0 0.0 0.0 2.0" /\
    exists after,
      metadata_line run_src fr
      = "Lattice=" ++ dq ++ "10.0 0.0 0.0 0.0 5.0 0.0 0.0 0.0 2.0" ++ dq
          ++ after.
Proof.
  eexists. split; [vm_compute; reflexivity|].
  apply (lattice_of_scenario_bounds default_config run_src 0
           (skipn 2 (frame3 "0")) [] _ false false false);
    vm_compute; reflexivity.
Defined.

(** C5 as stated fails: the lattice of the scenario frame is not
    [10 0.0 0.0 0.0 5 0.0 0.0 0.0 2]. *)
Lemma scenario_lattice_not_integers :
  exists block meta,
    process_dump_file default_config run_src (frame3 "0") = Returns [block] /\
    nth_error (lines_of block) 1 = Some meta /\
    lattice_field meta = "10.0 0.0 0.0 0.0 5.0 0.0 0.0 0.0 2.0" /\
    lattice_field meta <> "10 0.0 0.0 0.0 5 0.0 0.0 0.0 2".
Proof.
  eexists. eexists. split; [vm_compute; reflexivity|].
  split; [vm_compute; reflexivity|].
  split; [vm_compute; reflexivity|].
  vm_compute. discriminate.
Qed.

(** *** Numbers in fixed-point notation *)

Lemma digit_char_isdigit (d : Z) : 0 <= d < 10 -> isdigit (digit_char d) = true.
Proof.
  intros H.
  assert (E : d = 0 \/ d = 1 \/ d = 2 \/ d = 3 \/ d = 4 \/ d = 5 \/ d = 6
              \/ d = 7 \/ d = 8 \/ d = 9) by lia.
  repeat (destruct E as [-> | E]; [reflexivity|]). subst d. reflexivity.
Qed.

Lemma mod10_isdigit (n : Z) : isdigit (digit_char (n mod 10)) = true.
Proof.
  apply digit_char_isdigit. apply Z.mod_pos_bound. lia.
Qed.

Lemma digits_from_all (fuel : nat) :
  forall (n : Z) (acc : string),
    all_chars isdigit acc = true ->
    all_chars isdigit (PyInt.digits_from fuel n acc) = true.
Proof.
  induction fuel as [|fuel IH]; intros n acc Hacc; [exact Hacc|].
  simpl.
  assert (H : all_chars isdigit (String (digit_char (n mod 10)) acc) = true).
  { simpl. rewrite mod10_isdigit. exact Hacc. }
  destruct (n <? 10); [exact H|]. apply IH. exact H.
Qed.

Lemma digits_from_nonempty (fuel : nat) :
  forall (n : Z) (acc : string),
    acc <> "" -> PyInt.digits_from fuel n acc <> "".
Proof.
  induction fuel as [|fuel IH]; intros n acc Hacc; [exact Hacc|].
  simpl. destruct (n <? 10); [discriminate|]. apply IH. discriminate.
Qed.

Lemma digits_all (n : Z) : all_chars isdigit (PyInt.digits n) = true.
Proof.
  apply digits_from_all. reflexivity.
Qed.

Lemma digits_nonempty (n : Z) : PyInt.digits n <> "".
Proof.
  unfold PyInt.digits. simpl.
  destruct (n <? 10); [discriminate|]. apply digits_from_nonempty. discriminate.
Qed.

Lemma padded_all (w : nat) :
  forall (n : Z) (acc : string),
    all_chars isdigit acc = true ->
    all_chars isdigit (PyInt.padded w n acc) = true.
Proof.
  induction w as [|w IH]; intros n acc Hacc; [exact Hacc|].
  simpl. apply IH. simpl. rewrite mod10_isdigit. exact Hacc.
Qed.

Lemma padded_length (w : nat) :
  forall (n : Z) (acc : string),
    String.length (PyInt.padded w n acc) = (w + String.length acc)%nat.
Proof.
  induction w as [|w IH]; intros n acc; [reflexivity|].
  simpl. rewrite IH. simpl. lia.
Qed.

Lemma isdigit_not_dot (c : ascii) : isdigit c = true -> is_dot c = false.
Proof.
  destruct c as [[] [] [] [] [] [] [] []]; try reflexivity; discriminate.
Qed.

Lemma break_at_point (d p : string) :
  all_chars isdigit d = true ->
  break_at is_dot (d ++ String "." p) = (d, Some p).
Proof.
  induction d as [|c d IH]; intros H; [reflexivity|].
  simpl in H. apply andb_true_iff in H. destruct H as [Hc Hd].
  rewrite append_cons. simpl. rewrite (isdigit_not_dot c Hc), (IH Hd).
  reflexivity.
Qed.

(** Digits, a point and eight digits, with or without a minus. *)
Lemma is_fixed8_shape (neg : bool) (d p : string) :
  d <> "" -> all_chars isdigit d = true ->
  String.length p = 8%nat -> all_chars isdigit p = true ->
  is_fixed8 (sign_str neg ++ d ++ "." ++ p) = true.
Proof.
  intros Hne Hd Hlen Hp.
  assert (B : (negb (String.eqb d "") && all_chars isdigit d
               && (String.length p =? 8)%nat && all_chars isdigit p) = true).
  { rewrite Hd, Hp, Hlen. destruct d; [contradiction|reflexivity]. }
  change ("." ++ p) with (String "." p).
  destruct neg.
  - change (sign_str true ++ d ++ String "." p)
      with (String "-" (d ++ String "." p)).
    unfold is_fixed8. rewrite (break_at_point d p Hd). exact B.
  - change (sign_str false ++ d ++ String "." p) with (d ++ String "." p).
    unfold is_fixed8.
    destruct d as [|c d]; [contradiction|]. rewrite append_cons.
    assert (Hc : isdigit c = true).
    { simpl in Hd. apply andb_true_iff in Hd. apply Hd. }
    replace (match String c (d ++ String "." p) with
             | String "-" s' => s'
             | _ => String c (d ++ String "." p)
             end) with (String c (d ++ String "." p)).
    + rewrite <- append_cons, (break_at_point (String c d) p Hd). exact B.
    + destruct c as [[] [] [] [] [] [] [] []]; try reflexivity; discriminate Hc.
Qed.

(** The [.8f] format of a finite float is in fixed-point notation with
    eight decimals. *)
Lemma format_8f_fixed8 (v : float) :
  is_finite v = true -> is_fixed8 (format_8f v) = true.
Proof.
  destruct v as [s|s| |s m e]; try discriminate; intros _.
  - destruct s; reflexivity.
  - unfold format_8f. destruct (fraction m e) as [num den].
    apply is_fixed8_shape.
    + apply digits_nonempty.
    + apply digits_all.
    + rewrite padded_length. reflexivity.
    + apply padded_all. reflexivity.
Qed.


(** *** A frame cut short *)

(** X19. When the loop stands on a frame that is wanted and that declares
    more atoms than there are lines left after its atoms header, the call
    raises: it returns no list, with or without a block for that frame. *)
Theorem truncated_frame_raises (cfg : config) (src : source)
    (file : stream) (desired : list Z) (results : list string)
    (marker tline l2 nline l4 xb yb zb l8 : string) (atoms : list string)
    (t n : Z) :
  range 0 (MAX_TIMESTEP cfg + 1) (TIMESTEP_INTERVAL cfg) = Ok desired ->
  reaches cfg src desired (file, [])
    (marker :: tline :: l2 :: nline :: l4 :: xb :: yb :: zb :: l8 :: atoms,
     results) ->
  contains "ITEM: TIMESTEP" marker = true ->
  PyInt.int (strip tline) = Some t ->
  mem t desired = true ->
  PyInt.int (strip nline) = Some n ->
  Z.of_nat (length atoms) < n ->
  exists e, process_dump_file cfg src file = Raises e.
Proof.
  intros Hd Hr Hm Ht Hsel Hn Hlt.
  unfold process_dump_file. rewrite Hd.
  rewrite (loop_from _ _ _ _ _ _ _ Hr).
  cbn [loop]. rewrite (iteration_on_frame _ _ _ _ _ t _ _ Hm Ht), Hsel.
  rewrite parse_frame_eq. cbn [nth_error text skipn]. rewrite Hn.
  cbn [or_raise bind].
  destruct (unpack2 (split xb)) as [[xlo xhi]|e]; cbn [bind];
    [|exists e; reflexivity].
  destruct (unpack2 (split yb)) as [[ylo yhi]|e]; cbn [bind];
    [|exists e; reflexivity].
  destruct (unpack2 (split zb)) as [[zlo zhi]|e]; cbn [bind];
    [|exists e; reflexivity].
  change (skipn 0 atoms) with atoms.
  destruct (read_atoms_short cfg (Z.to_nat n) atoms [] zero ltac:(lia))
    as [e He].
  rewrite He. exists e. reflexivity.
Qed.

Lemma truncated_frame_raises_witness :
  exists e,
    process_dump_file default_config run_src
      (header "100" "3" "0 10" "0 5" "0 2" ++ [atom1; atom2])%list
    = Raises e.
Proof.
  destruct (range 0 (MAX_TIMESTEP default_config + 1)
              (TIMESTEP_INTERVAL default_config)) as [desired|e] eqn:Hd.
  - apply (truncated_frame_raises default_config run_src _ desired []
             "ITEM: TIMESTEP" "100" "ITEM: NUMBER OF ATOMS" "3"
             "ITEM: BOX BOUNDS pp pp pp" "0 10" "0 5" "0 2"
             "ITEM: ATOMS id type x y z vx vy vz fx fy fz atom_energy"
             [atom1; atom2] 100 3).
    + exact Hd.
    + apply reaches_here.
    + vm_compute. reflexivity.
    + vm_compute. reflexivity.
    + vm_compute in Hd. injection Hd as <-. vm_compute. reflexivity.
    + vm_compute. reflexivity.
    + vm_compute. reflexivity.
  - vm_compute in Hd. discriminate Hd.
Defined.

(** *** The skip path *)

(** C3, on the code: the skip path does not end where the full parse
    ends. On the scenario frame of three atoms it takes the id of the
    first atom, 1, for the count and stops before the third atom line;
    the full parse reads all three. *)
Lemma skip_stops_before_frame_end :
  skip_frame (skipn 2 (frame3 "50")) = Ok (SkipContinue [atom3]) /\
  exists fr,
    parse_frame default_config 50 (skipn 2 (frame3 "50")) = Ok (fr, []) /\
    num_atoms fr = 3.
Proof.
  split; [vm_compute; reflexivity|].
  eexists. split; vm_compute; reflexivity.
Qed.

(** C1, on the code: a wanted frame is lost. Timestep 100 is wanted and
    the frame alone gives its block; after a frame of one atom that is
    skipped, the skip path reads one line too many, the frame-start line
    of the next frame, and the call returns nothing. *)
Lemma wanted_frame_lost_after_skip :
  exists desired block,
    range 0 (MAX_TIMESTEP default_config + 1)
      (TIMESTEP_INTERVAL default_config) = Ok desired /\
    mem 50 desired = false /\
    mem 100 desired = true /\
    process_dump_file default_config run_src (frame1 "100") = Returns [block] /\
    process_dump_file default_config run_src (frame1 "50" ++ frame1 "100")%list
    = Returns [].
Proof.
  eexists. eexists. split; [vm_compute; reflexivity|].
  repeat split; vm_compute; reflexivity.
Qed.

(** *** What an atom line contributes *)

Lemma firstn3_skipn {A} (k : nat) :
  forall p : list A,
    firstn 3 (skipn k p)
    = match nth_error p k with
      | None => []
      | Some a =>
          a :: match nth_error p (S k) with
               | None => []
               | Some b =>
                   b :: match nth_error p (S (S k)) with
                        | None => []
                        | Some c => [c]
                        end
               end
      end.
Proof.
  induction k as [|k IH]; intros p.
  - destruct p as [|a [|b [|c p]]]; reflexivity.
  - destruct p as [|a p]; [reflexivity|]. exact (IH p).
Qed.

(** The atom and the energy read from a line depend on its columns 1 to
    4 and 8 to 11 only. *)
Lemma parse_atom_hidden (cfg : config) (l1 l2 : string) :
  same_but_hidden l1 l2 ->
  parse_atom cfg (Some l1) = parse_atom cfg (Some l2).
Proof.
  intros H. unfold parse_atom, item, slice. cbn [text].
  change (5 - 2)%nat with 3%nat. change (11 - 8)%nat with 3%nat.
  rewrite !firstn3_skipn.
  rewrite (H 1%nat), (H 2%nat), (H 3%nat), (H 4%nat), (H 8%nat), (H 9%nat),
    (H 10%nat), (H 11%nat) by reflexivity.
  reflexivity.
Qed.

Lemma read_atoms_hidden (cfg : config) (ls1 ls2 : list string) (post : stream) :
  Forall2 same_but_hidden ls1 ls2 ->
  forall (n : nat) (acc : list atom) (tot : float),
    (length ls1 <= n)%nat ->
    read_atoms cfg n (ls1 ++ post)%list acc tot
    = read_atoms cfg n (ls2 ++ post)%list acc tot.
Proof.
  induction 1 as [|l1 l2 ls1 ls2 Hl _ IH]; intros n acc tot Hn; [reflexivity|].
  destruct n as [|n]; [simpl in Hn; lia|].
  simpl. rewrite (parse_atom_hidden cfg l1 l2 Hl).
  destruct (parse_atom cfg (Some l2)) as [[a en]|e]; cbn [bind]; [|reflexivity].
  apply IH. simpl in Hn. lia.
Qed.

(** *** An iteration reads a prefix of the stream *)

Lemma read_atoms_local (cfg : config) (n : nat) :
  forall (f : stream) (acc : list atom) (tot : float)
         (atoms : list atom) (total : float) (rest : stream),
    read_atoms cfg n f acc tot = Ok (atoms, total, rest) ->
    exists lines : list string,
      f = (lines ++ rest)%list /\
      forall h, read_atoms cfg n (lines ++ h)%list acc tot = Ok (atoms, total, h).
Proof.
  induction n as [|n IH]; intros f acc tot atoms total rest H.
  - simpl in H. injection H as <- <- <-. exists []. split; reflexivity.
  - simpl in H. destruct f as [|l f]; simpl in H.
    + discriminate H.
    + destruct (parse_atom cfg (Some l)) as [[a en]|e] eqn:Hp; cbn [bind] in H;
        [|discriminate H].
      destruct (IH _ _ _ _ _ _ H) as (lines & -> & Hh).
      exists (l :: lines). split; [reflexivity|].
      intros h. simpl. rewrite Hp. cbn [bind]. apply Hh.
Qed.

Lemma app_nonempty_r {A} (a b : list A) : b <> [] -> (a ++ b)%list <> [].
Proof.
  intros Hb H. apply app_eq_nil in H. destruct H as [_ H]. contradiction.
Qed.

Lemma parse_frame_local (cfg : config) (t : Z) (f rest : stream) (fr : frame) :
  parse_frame cfg t f = Ok (fr, rest) ->
  rest <> [] ->
  exists c : list string,
    f = (c ++ rest)%list /\
    forall h, parse_frame cfg t (c ++ h)%list = Ok (fr, h).
Proof.
  intros H Hne.
  assert (H7 : skipn 7 f <> []).
  { apply parse_frame_ok in H. destruct H as (lines & parsed & Hf & _).
    rewrite Hf. apply app_nonempty_r. exact Hne. }
  do 7 (destruct f as [|? f]; [contradiction H7; reflexivity|]).
  clear H7. rewrite parse_frame_eq in H. cbn [nth_error text skipn] in H.
  change (skipn 0 f) with f in H.
  destruct (PyInt.int (strip s0)) as [n|] eqn:Hn; cbn [bind or_raise] in H;
    [|discriminate H].
  destruct (unpack2 (split s2)) as [[xlo xhi]|] eqn:Hx; cbn [bind] in H;
    [|discriminate H].
  destruct (unpack2 (split s3)) as [[ylo yhi]|] eqn:Hy; cbn [bind] in H;
    [|discriminate H].
  destruct (unpack2 (split s4)) as [[zlo zhi]|] eqn:Hz; cbn [bind] in H;
    [|discriminate H].
  destruct (read_atoms cfg (Z.to_nat n) f [] zero) as [[[atoms total] f']|] eqn:Ha;
    cbn [bind] in H; [|discriminate H].
  injection H as <- <-.
  destruct (read_atoms_local _ _ _ _ _ _ _ _ Ha) as (lines & -> & Hh).
  exists (s :: s0 :: s1 :: s2 :: s3 :: s4 :: s5 :: lines).
  split; [reflexivity|].
  intros h. rewrite parse_frame_eq. cbn [app nth_error text skipn].
  change (skipn 0 (lines ++ h)%list) with (lines ++ h)%list.
  rewrite Hn, Hx, Hy, Hz. cbn [bind or_raise]. rewrite Hh. reflexivity.
Qed.

Lemma skipn_exact {A} (k : nat) (f rest : list A) :
  skipn k f = rest -> rest <> [] ->
  exists c, f = (c ++ rest)%list /\ forall h, skipn k (c ++ h)%list = h.
Proof.
  intros H Hne. exists (firstn k f). split.
  - rewrite <- H. symmetry. apply firstn_skipn.
  - intros h.
    assert (Hk : (k < length f)%nat).
    { destruct (Nat.lt_ge_cases k (length f)) as [Hlt|Hge]; [exact Hlt|].
      rewrite (List.skipn_all2 _ Hge) in H. congruence. }
    rewrite List.skipn_app, List.length_firstn.
    replace (Nat.min k (length f)) with k by lia.
    rewrite Nat.sub_diag, (List.skipn_all2 (n := k) (firstn k f)).
    + reflexivity.
    + rewrite List.length_firstn. lia.
Qed.

Lemma skip_frame_local (f rest : stream) :
  skip_frame f = Ok (SkipContinue rest) ->
  rest <> [] ->
  exists c : list string,
    f = (c ++ rest)%list /\
    forall h, skip_frame (c ++ h)%list = Ok (SkipContinue h).
Proof.
  intros H Hne. rewrite skip_frame_eq in H.
  destruct (nth_error f 6) as [l6|] eqn:H6; [|discriminate H].
  destruct (item (split (text (nth_error f 7))) 0) as [tok|] eqn:Htok;
    cbn [bind] in H; [|discriminate H].
  destruct (PyInt.int tok) as [n|] eqn:Hn; cbn [bind or_raise] in H;
    [|discriminate H].
  injection H as H.
  assert (H8 : skipn 8 f <> []).
  { intros E. rewrite E, List.skipn_nil in H. congruence. }
  do 8 (destruct f as [|? f]; [contradiction H8; reflexivity|]).
  clear H8. cbn [skipn nth_error text] in H, Htok.
  change (skipn 0 f) with f in H.
  destruct (skipn_exact _ _ _ H Hne) as (c & -> & Hc).
  exists (s :: s0 :: s1 :: s2 :: s3 :: s4 :: s5 :: s6 :: c).
  split; [reflexivity|].
  intros h. rewrite skip_frame_eq. cbn [app nth_error text skipn].
  rewrite Htok. cbn [bind]. rewrite Hn. cbn [bind or_raise].
  change (skipn 0 (c ++ h)%list) with (c ++ h)%list.
  rewrite Hc. reflexivity.
Qed.

(** An iteration that leaves lines unread has read the lines before them
    and nothing else: on any other continuation of those lines it does
    the same. *)
Lemma iteration_local (cfg : config) (src : source) (desired : list Z)
    (f f' : stream) (results results' : list string) :
  iteration cfg src desired f results = Continue f' results' ->
  f' <> [] ->
  exists c : list string,
    f = (c ++ f')%list /\
    forall h, iteration cfg src desired (c ++ h)%list results
              = Continue h results'.
Proof.
  intros H Hne. destruct f as [|line f]; [discriminate H|].
  unfold iteration in H. cbn [readline] in H.
  destruct (contains "ITEM: TIMESTEP" line) eqn:Hm; cbn [negb] in H.
  - destruct f as [|tline f]; [discriminate H|].
    cbn [readline text] in H.
    destruct (PyInt.int (strip tline)) as [t|] eqn:Ht; [|discriminate H].
    destruct (mem t desired) eqn:Hsel; cbn [negb] in H.
    + destruct (parse_frame cfg t f) as [[fr f2]|] eqn:Hp; [|discriminate H].
      injection H as <- <-.
      destruct (parse_frame_local _ _ _ _ _ Hp Hne) as (c & -> & Hc).
      exists (line :: tline :: c). split; [reflexivity|].
      intros h. cbn [app].
      rewrite (iteration_on_frame _ _ _ _ _ t _ _ Hm Ht), Hsel, Hc.
      reflexivity.
    + destruct (skip_frame f) as [[|f2]|] eqn:Hs; try discriminate H.
      injection H as <- <-.
      destruct (skip_frame_local _ _ Hs Hne) as (c & -> & Hc).
      exists (line :: tline :: c). split; [reflexivity|].
      intros h. cbn [app].
      rewrite (iteration_on_frame _ _ _ _ _ t _ _ Hm Ht), Hsel, Hc.
      reflexivity.
  - injection H as <- <-. exists [line]. split; [reflexivity|].
    intros h. unfold iteration. cbn [app readline]. rewrite Hm. reflexivity.
Qed.

(** The same for a run of iterations. *)
Lemma reaches_local (cfg : config) (src : source) (desired : list Z)
    (s s' : state) :
  reaches cfg src desired s s' ->
  fst s' <> [] ->
  exists c : list string,
    fst s = (c ++ fst s')%list /\
    forall h, reaches cfg src desired ((c ++ h)%list, snd s) (h, snd s').
Proof.
  induction 1 as [[g r]|f r f1 r1 s Hi Hr IH]; intros Hne.
  - exists []. split; [reflexivity|]. intros h. apply reaches_here.
  - destruct (IH Hne) as (c1 & E1 & H1). cbn [fst snd] in *.
    assert (Hf1 : f1 <> []).
    { rewrite E1. apply app_nonempty_r. exact Hne. }
    destruct (iteration_local _ _ _ _ _ _ _ Hi Hf1) as (c & -> & Hc).
    exists (c ++ c1)%list. split.
    + rewrite E1, app_assoc. reflexivity.
    + intros h. rewrite <- app_assoc.
      apply (reaches_step _ _ _ _ _ _ _ _ (Hc (c1 ++ h)%list)). apply H1.
Qed.

(** *** The atom id and the velocity do not show *)

(** C10. Take a file in which the loop comes to stand on a wanted frame
    whose atom lines are those the frame declares, and a second file that
    differs from it only in columns 0 and 5 to 7 of those atom lines. The
    full parse of the frame gives the same frame in both, so the same
    block, and the two calls give the same result. *)
Theorem hidden_columns_do_not_show (cfg : config) (src : source)
    (desired : list Z) (pre post : stream) (atoms1 atoms2 : list string)
    (results : list string)
    (marker tline l2 nline l4 xb yb zb l8 : string) (t : Z) :
  range 0 (MAX_TIMESTEP cfg + 1) (TIMESTEP_INTERVAL cfg) = Ok desired ->
  reaches cfg src desired
    ((pre ++ marker :: tline :: l2 :: nline :: l4 :: xb :: yb :: zb :: l8
          :: atoms1 ++ post)%list, [])
    ((marker :: tline :: l2 :: nline :: l4 :: xb :: yb :: zb :: l8
        :: atoms1 ++ post)%list, results) ->
  contains "ITEM: TIMESTEP" marker = true ->
  PyInt.int (strip tline) = Some t ->
  mem t desired = true ->
  PyInt.int (strip nline) = Some (Z.of_nat (length atoms1)) ->
  Forall2 same_but_hidden atoms1 atoms2 ->
  parse_frame cfg t
    (l2 :: nline :: l4 :: xb :: yb :: zb :: l8 :: atoms1 ++ post)%list
  = parse_frame cfg t
      (l2 :: nline :: l4 :: xb :: yb :: zb :: l8 :: atoms2 ++ post)%list
  /\
  process_dump_file cfg src
    (pre ++ marker :: tline :: l2 :: nline :: l4 :: xb :: yb :: zb :: l8
         :: atoms1 ++ post)%list
  = process_dump_file cfg src
      (pre ++ marker :: tline :: l2 :: nline :: l4 :: xb :: yb :: zb :: l8
           :: atoms2 ++ post)%list.
Proof.
  intros Hd Hr Hm Ht Hsel Hn Hall.
  assert (P : parse_frame cfg t
                (l2 :: nline :: l4 :: xb :: yb :: zb :: l8 :: atoms1 ++ post)%list
              = parse_frame cfg t
                  (l2 :: nline :: l4 :: xb :: yb :: zb :: l8 :: atoms2 ++ post)%list).
  { rewrite !parse_frame_eq. cbn [nth_error text skipn]. rewrite Hn.
    cbn [bind or_raise].
    change (skipn 0 (atoms1 ++ post)%list) with (atoms1 ++ post)%list.
    change (skipn 0 (atoms2 ++ post)%list) with (atoms2 ++ post)%list.
    rewrite (read_atoms_hidden cfg atoms1 atoms2 post Hall) by lia.
    reflexivity. }
  split; [exact P|].
  set (F1 := (marker :: tline :: l2 :: nline :: l4 :: xb :: yb :: zb :: l8
                :: atoms1 ++ post)%list) in *.
  set (F2 := (marker :: tline :: l2 :: nline :: l4 :: xb :: yb :: zb :: l8
                :: atoms2 ++ post)%list).
  assert (I : iteration cfg src desired F1 results
              = iteration cfg src desired F2 results).
  { unfold F1, F2.
    rewrite !(iteration_on_frame _ _ _ _ _ t _ _ Hm Ht), Hsel, P. reflexivity. }
  destruct (reaches_local _ _ _ _ _ Hr) as (c & Ec & Hc).
  { cbn [fst]. unfold F1. discriminate. }
  cbn [fst snd] in Ec, Hc. apply app_inv_tail in Ec. subst c.
  unfold process_dump_file. rewrite Hd.
  rewrite (loop_from _ _ _ _ _ _ _ Hr), (loop_from _ _ _ _ _ _ _ (Hc F2)).
  destruct (iteration cfg src desired F1 results) as [f' r'|r'|e] eqn:E1.
  - symmetry in I.
    rewrite (loop_from _ _ _ _ _ _ _
               (reaches_step _ _ _ _ _ _ _ _ E1 (reaches_here _ _ _ _))).
    rewrite (loop_from _ _ _ _ _ _ _
               (reaches_step _ _ _ _ _ _ _ _ I (reaches_here _ _ _ _))).
    reflexivity.
  - cbn [loop]. rewrite E1, <- I. reflexivity.
  - cbn [loop]. rewrite E1, <- I. reflexivity.
Qed.

Lemma hidden_columns_do_not_show_witness :
  parse_frame default_config 100
    (skipn 2 (header "100" "3" "0 10" "0 5" "0 2")
       ++ [atom1; atom2; atom3] ++ frame3 "200")%list
  = parse_frame default_config 100
      (skipn 2 (header "100" "3" "0 10" "0 5" "0 2")
         ++ [atom1'; atom2'; atom3'] ++ frame3 "200")%list
  /\
  process_dump_file default_config run_src
    (frame3 "0" ++ header "100" "3" "0 10" "0 5" "0 2"
       ++ [atom1; atom2; atom3] ++ frame3 "200")%list
  = process_dump_file default_config run_src
      (frame3 "0" ++ header "100" "3" "0 10" "0 5" "0 2"
         ++ [atom1'; atom2'; atom3'] ++ frame3 "200")%list.
Proof.
  destruct (range 0 (MAX_TIMESTEP default_config + 1)
              (TIMESTEP_INTERVAL default_config)) as [desired|e] eqn:Hd.
  - vm_compute in Hd. injection Hd as Hd.
    eapply (hidden_columns_do_not_show default_config run_src desired
              (frame3 "0") (frame3 "200") [atom1; atom2; atom3]
              [atom1'; atom2'; atom3'] _
              "ITEM: TIMESTEP" "100" "ITEM: NUMBER OF ATOMS" "3"
              "ITEM: BOX BOUNDS pp pp pp" "0 10" "0 5" "0 2"
              "ITEM: ATOMS id type x y z vx vy vz fx fy fz atom_energy" 100).
    + rewrite <- Hd. vm_compute. reflexivity.
    + eapply reaches_step; [rewrite <- Hd; vm_compute; reflexivity|].
      apply reaches_here.
    + vm_compute. reflexivity.
    + vm_compute. reflexivity.
    + rewrite <- Hd. vm_compute. reflexivity.
    + vm_compute. reflexivity.
    + constructor; [|constructor; [|constructor; [|constructor]]];
        intros i Hi;
        do 12 (destruct i as [|i];
               [first [discriminate Hi | vm_compute; reflexivity]|]);
        vm_compute; reflexivity.
  - vm_compute in Hd. discriminate Hd.
Defined.

(** ** Further properties of the scanner *)

(** X2. A zero [TIMESTEP_INTERVAL] makes every call raise [ValueError],
    whatever the file holds: [range] refuses the step before the file is
    opened. *)
Theorem zero_interval_raises (cfg : config) (src : source) (file : stream) :
  TIMESTEP_INTERVAL cfg = 0 ->
  process_dump_file cfg src file = Raises ValueError.
Proof.
  intros H. unfold process_dump_file, range. rewrite H. reflexivity.
Qed.

Lemma zero_interval_raises_witness :
  process_dump_file {| MAX_TIMESTEP := 100; TIMESTEP_INTERVAL := 0;
                       ATOM_TYPE_MAP := ∅ |} run_src (frame3 "0")
  = Raises ValueError.
Proof.
  apply zero_interval_raises. reflexivity.
Defined.

Lemma range_ok (start stop step : Z) :
  step <> 0 -> exists l, range start stop step = Ok l.
Proof.
  intros H. unfold range. destruct (step =? 0) eqn:E.
  - apply Z.eqb_eq in E. contradiction.
  - eexists. reflexivity.
Qed.

Lemma reaches_trans (cfg : config) (src : source) (desired : list Z)
    (s1 s2 s3 : state) :
  reaches cfg src desired s1 s2 -> reaches cfg src desired s2 s3 ->
  reaches cfg src desired s1 s3.
Proof.
  induction 1 as [s|f r f' r' s Hi Hr IH]; intros H23; [exact H23|].
  apply (reaches_step _ _ _ _ _ _ _ _ Hi). apply IH. exact H23.
Qed.

(** Lines without the frame-start text are read one by one and change
    nothing. *)
Lemma plain_lines_pass (cfg : config) (src : source) (desired : list Z)
    (ls : list string) (rest : stream) (results : list string) :
  forallb (fun l => negb (is_start l)) ls = true ->
  reaches cfg src desired ((ls ++ rest)%list, results) (rest, results).
Proof.
  induction ls as [|l ls IH]; intros H; [apply reaches_here|].
  cbn [forallb] in H. apply andb_true_iff in H. destruct H as [Hl Hls].
  apply (reaches_step _ _ _ _ _ ((ls ++ rest)%list) results).
  - unfold iteration. cbn [app readline]. unfold is_start in Hl.
    rewrite Hl. reflexivity.
  - apply IH. exact Hls.
Qed.

(** The loop at the end of the file returns what it has. *)
Lemma loop_at_end (cfg : config) (src : source) (desired : list Z)
    (results : list string) :
  loop 1 cfg src desired [] results = Returns results.
Proof. reflexivity. Qed.

Lemma run_to_end (cfg : config) (src : source) (desired : list Z)
    (file : stream) (results : list string) :
  range 0 (MAX_TIMESTEP cfg + 1) (TIMESTEP_INTERVAL cfg) = Ok desired ->
  reaches cfg src desired (file, []) ([], results) ->
  process_dump_file cfg src file = Returns results.
Proof.
  intros Hd Hr. unfold process_dump_file. rewrite Hd.
  rewrite (loop_from _ _ _ _ _ _ _ Hr). reflexivity.
Qed.

(** X3. A file in which no line holds the text [ITEM: TIMESTEP] gives no
    block and no error, whatever else it holds; the empty file is one. *)
Theorem no_frame_start_no_block (cfg : config) (src : source) (file : stream) :
  TIMESTEP_INTERVAL cfg <> 0 ->
  forallb (fun l => negb (is_start l)) file = true ->
  process_dump_file cfg src file = Returns [].
Proof.
  intros Hs Hall.
  destruct (range_ok 0 (MAX_TIMESTEP cfg + 1) _ Hs) as [desired Hd].
  apply (run_to_end cfg src desired _ _ Hd).
  rewrite <- (app_nil_r file) at 1.
  apply plain_lines_pass. exact Hall.
Qed.

Lemma no_frame_start_no_block_witness :
  process_dump_file default_config run_src
    ["ITEM: NUMBER OF ATOMS"; "3"; ""; atom1; "ITEM: TIME STEP"]
  = Returns [].
Proof.
  apply no_frame_start_no_block.
  - vm_compute. discriminate.
  - vm_compute. reflexivity.
Defined.

(** *** Dumps made of whole frames *)

(** A full parse that reads exactly the lines of a frame reads them the
    same way when other lines follow. *)
Lemma parse_frame_extend (cfg : config) (t : Z) (ft : frame_text)
    (fr : frame) (rest : stream) :
  parse_frame cfg t (body ft) = Ok (fr, []) ->
  parse_frame cfg t (body ft ++ rest)%list = Ok (fr, rest).
Proof.
  intros H. rewrite parse_frame_eq in H. rewrite parse_frame_eq.
  unfold body in *. cbn [app nth_error text skipn] in *.
  change (skipn 0 (atom_lines ft)) with (atom_lines ft) in H.
  change (skipn 0 (atom_lines ft ++ rest)%list)
    with (atom_lines ft ++ rest)%list.
  destruct (PyInt.int (strip (count_line ft))) as [n|];
    cbn [bind or_raise] in *; [|discriminate H].
  destruct (unpack2 (split (xb_line ft))) as [[xlo xhi]|]; cbn [bind] in *;
    [|discriminate H].
  destruct (unpack2 (split (yb_line ft))) as [[ylo yhi]|]; cbn [bind] in *;
    [|discriminate H].
  destruct (unpack2 (split (zb_line ft))) as [[zlo zhi]|]; cbn [bind] in *;
    [|discriminate H].
  destruct (read_atoms cfg (Z.to_nat n) (atom_lines ft) [] zero)
    as [[[atoms total] f']|] eqn:Ha; cbn [bind] in H; [|discriminate H].
  injection H as <- ->.
  destruct (read_atoms_local _ _ _ _ _ _ _ _ Ha) as (lines & E & Hh).
  rewrite app_nil_r in E. subst lines. rewrite Hh. reflexivity.
Qed.

(** The loop passes a scannable frame and adds its blocks. *)
Lemma scannable_frame_passes (cfg : config) (src : source) (desired : list Z)
    (ft : frame_text) (rest : stream) (results : list string) :
  scannable cfg desired ft = true ->
  reaches cfg src desired
    ((frame_lines ft ++ rest)%list, results)
    (rest, (results ++ blocks_of cfg src desired ft)%list).
Proof.
  unfold scannable, blocks_of. intros H.
  apply andb_true_iff in H. destruct H as [Hm H].
  destruct (PyInt.int (strip (timestep_line ft))) as [t|] eqn:Ht;
    [|discriminate H].
  unfold frame_lines. cbn [app].
  destruct (mem t desired) eqn:Hsel.
  - destruct (parse_frame cfg t (body ft)) as [[fr [|? ?]]|] eqn:Hp;
      try discriminate H.
    apply (reaches_step _ _ _ _ _ rest (results ++ [render src fr])%list);
      [|apply reaches_here].
    rewrite (iteration_on_frame _ _ _ _ _ t _ _ Hm Ht), Hsel.
    rewrite (parse_frame_extend _ _ _ _ rest Hp). reflexivity.
  - rewrite app_nil_r. unfold skippable in H.
    destruct (atom_lines ft) as [|first more] eqn:Ha; [discriminate H|].
    destruct (nth_error (split first) 0) as [tok|] eqn:Htok; [|discriminate H].
    destruct (PyInt.int tok) as [k|] eqn:Hk; [|discriminate H].
    apply andb_true_iff in H. destruct H as [Hle Hplain].
    apply Nat.leb_le in Hle.
    apply (reaches_step _ _ _ _ _
             (skipn (Z.to_nat k) more ++ rest)%list results).
    + rewrite (iteration_on_frame _ _ _ _ _ t _ _ Hm Ht), Hsel.
      rewrite skip_frame_eq. unfold body. rewrite Ha.
      cbn [app nth_error text skipn]. unfold item. rewrite Htok.
      cbn [or_raise bind]. rewrite Hk. cbn [or_raise bind].
      change (skipn 0 (more ++ rest)%list) with (more ++ rest)%list.
      rewrite List.skipn_app.
      replace (Z.to_nat k - length more)%nat with 0%nat by lia.
      reflexivity.
    + apply plain_lines_pass.
      rewrite <- (firstn_skipn (Z.to_nat k) more), forallb_app in Hplain.
      apply andb_true_iff in Hplain. apply Hplain.
Qed.

Lemma scannable_frames_pass (cfg : config) (src : source) (desired : list Z)
    (frames : list frame_text) (rest : stream) :
  forallb (scannable cfg desired) frames = true ->
  forall results,
    reaches cfg src desired
      ((dump_lines frames ++ rest)%list, results)
      (rest, (results ++ concat (map (blocks_of cfg src desired) frames))%list).
Proof.
  induction frames as [|ft frames IH]; intros H results.
  - cbn. rewrite app_nil_r. apply reaches_here.
  - cbn [forallb] in H. apply andb_true_iff in H. destruct H as [Hft Hfs].
    unfold dump_lines. cbn [map concat]. rewrite <- !app_assoc.
    apply (reaches_trans _ _ _ _ _ _
             (scannable_frame_passes cfg src desired ft _ results Hft)).
    rewrite app_assoc. apply (IH Hfs).
Qed.

(** X4. On a dump made of scannable frames the call returns the blocks of
    the wanted frames, one for each, in file order, and nothing for the
    others. *)
Theorem whole_frames_give_wanted_blocks (cfg : config) (src : source)
    (desired : list Z) (frames : list frame_text) :
  range 0 (MAX_TIMESTEP cfg + 1) (TIMESTEP_INTERVAL cfg) = Ok desired ->
  forallb (scannable cfg desired) frames = true ->
  process_dump_file cfg src (dump_lines frames)
  = Returns (concat (map (blocks_of cfg src desired) frames)).
Proof.
  intros Hd Hall. apply (run_to_end cfg src desired _ _ Hd).
  rewrite <- (app_nil_r (dump_lines frames)).
  apply (scannable_frames_pass cfg src desired frames [] Hall []).
Qed.

Lemma whole_frames_give_wanted_blocks_witness :
  exists desired,
    range 0 (MAX_TIMESTEP default_config + 1)
      (TIMESTEP_INTERVAL default_config) = Ok desired /\
    forallb (scannable default_config desired)
      [scenario "0" [atom1; atom2; atom3]; scenario "50" [atom1; atom2; atom3];
       scenario "100" [atom1; atom2]] = true /\
    process_dump_file default_config run_src
      (dump_lines
         [scenario "0" [atom1; atom2; atom3];
          scenario "50" [atom1; atom2; atom3];
          scenario "100" [atom1; atom2]])
    = Returns
        (concat
           (map (blocks_of default_config run_src desired)
              [scenario "0" [atom1; atom2; atom3];
               scenario "50" [atom1; atom2; atom3];
               scenario "100" [atom1; atom2]])).
Proof.
  eexists. split; [vm_compute; reflexivity|].
  split; [vm_compute; reflexivity|].
  apply whole_frames_give_wanted_blocks; vm_compute; reflexivity.
Defined.

(** *** Frames cut short and lines that do not parse *)

(** X5. A frame-start line that is the last line of the file, or that is
    followed by a line that is no integer, makes the call raise
    [ValueError]. *)
Theorem bad_timestep_raises (cfg : config) (src : source) (desired : list Z)
    (file f : stream) (results : list string) (marker : string) :
  range 0 (MAX_TIMESTEP cfg + 1) (TIMESTEP_INTERVAL cfg) = Ok desired ->
  reaches cfg src desired (file, []) ((marker :: f)%list, results) ->
  is_start marker = true ->
  (forall tline, hd_error f = Some tline -> PyInt.int (strip tline) = None) ->
  process_dump_file cfg src file = Raises ValueError.
Proof.
  intros Hd Hr Hm Ht. unfold process_dump_file. rewrite Hd.
  rewrite (loop_from _ _ _ _ _ _ _ Hr). cbn [loop].
  unfold iteration. cbn [readline]. unfold is_start in Hm. rewrite Hm.
  cbn [negb]. destruct f as [|tline f]; cbn [readline text].
  - reflexivity.
  - rewrite (Ht tline eq_refl). reflexivity.
Qed.

Lemma bad_timestep_raises_witness :
  process_dump_file default_config run_src
    (frame3 "0" ++ ["ITEM: TIMESTEP"; "1.5e2"; "ITEM: NUMBER OF ATOMS"])%list
  = Raises ValueError.
Proof.
  destruct (range 0 (MAX_TIMESTEP default_config + 1)
              (TIMESTEP_INTERVAL default_config)) as [desired|e] eqn:Hd.
  - vm_compute in Hd. injection Hd as Hd.
    eapply (bad_timestep_raises default_config run_src desired _
              ["1.5e2"; "ITEM: NUMBER OF ATOMS"] _ "ITEM: TIMESTEP").
    + rewrite <- Hd. vm_compute. reflexivity.
    + eapply reaches_step; [rewrite <- Hd; vm_compute; reflexivity|].
      apply reaches_here.
    + vm_compute. reflexivity.
    + intros tline [= <-]. vm_compute. reflexivity.
  - vm_compute in Hd. discriminate Hd.
Defined.

(** X6. A frame that is not wanted and has fewer than seven lines after its
    timestep line, so no atoms header, ends the scan without an error:
    the call returns the blocks it has. *)
Theorem unwanted_frame_cut_short_returns (cfg : config) (src : source)
    (desired : list Z) (file f : stream) (results : list string)
    (marker tline : string) (t : Z) :
  range 0 (MAX_TIMESTEP cfg + 1) (TIMESTEP_INTERVAL cfg) = Ok desired ->
  reaches cfg src desired (file, []) ((marker :: tline :: f)%list, results) ->
  is_start marker = true ->
  PyInt.int (strip tline) = Some t ->
  mem t desired = false ->
  (length f < 7)%nat ->
  process_dump_file cfg src file = Returns results.
Proof.
  intros Hd Hr Hm Ht Hsel Hlen. unfold process_dump_file. rewrite Hd.
  rewrite (loop_from _ _ _ _ _ _ _ Hr). cbn [loop].
  rewrite (iteration_on_frame _ _ _ _ _ t _ _ Hm Ht), Hsel, skip_frame_eq.
  assert (E : nth_error f 6 = None) by (apply nth_error_None; lia).
  rewrite E. reflexivity.
Qed.

Lemma unwanted_frame_cut_short_returns_witness :
  exists block,
    process_dump_file default_config run_src
      (frame3 "0" ++ ["ITEM: TIMESTEP"; "50"; "ITEM: NUMBER OF ATOMS"; "3";
                      "ITEM: BOX BOUNDS pp pp pp"; "0 10"])%list
    = Returns [block].
Proof.
  destruct (range 0 (MAX_TIMESTEP default_config + 1)
              (TIMESTEP_INTERVAL default_config)) as [desired|e] eqn:Hd.
  - vm_compute in Hd. injection Hd as Hd. eexists.
    eapply (unwanted_frame_cut_short_returns default_config run_src desired _
              ["ITEM: NUMBER OF ATOMS"; "3"; "ITEM: BOX BOUNDS pp pp pp"; "0 10"]
              _ "ITEM: TIMESTEP" "50" 50).
    + rewrite <- Hd. vm_compute. reflexivity.
    + eapply reaches_step; [rewrite <- Hd; vm_compute; reflexivity|].
      apply reaches_here.
    + vm_compute. reflexivity.
    + vm_compute. reflexivity.
    + rewrite <- Hd. vm_compute. reflexivity.
    + simpl. lia.
  - vm_compute in Hd. discriminate Hd.
Defined.

Lemma unpack2_nil : unpack2 (split (text None)) = Raise ValueError.
Proof. reflexivity. Qed.

(** X7. A wanted frame with fewer than six lines after its timestep line,
    so without all of its count and its three bounds, makes the call
    raise [ValueError]. *)
Theorem wanted_frame_cut_short_raises (cfg : config) (src : source)
    (desired : list Z) (file f : stream) (results : list string)
    (marker tline : string) (t : Z) :
  range 0 (MAX_TIMESTEP cfg + 1) (TIMESTEP_INTERVAL cfg) = Ok desired ->
  reaches cfg src desired (file, []) ((marker :: tline :: f)%list, results) ->
  is_start marker = true ->
  PyInt.int (strip tline) = Some t ->
  mem t desired = true ->
  (length f < 6)%nat ->
  process_dump_file cfg src file = Raises ValueError.
Proof.
  intros Hd Hr Hm Ht Hsel Hlen. unfold process_dump_file. rewrite Hd.
  rewrite (loop_from _ _ _ _ _ _ _ Hr). cbn [loop].
  rewrite (iteration_on_frame _ _ _ _ _ t _ _ Hm Ht), Hsel, parse_frame_eq.
  assert (E : nth_error f 5 = None) by (apply nth_error_None; lia).
  rewrite E, unpack2_nil.
  destruct (or_raise ValueError (PyInt.int (strip (text (nth_error f 1)))))
    as [n|[]] eqn:En; cbn [bind].
  - destruct (unpack2 (split (text (nth_error f 3)))) as [[xlo xhi]|[]] eqn:Ex;
      cbn [bind]; try reflexivity.
    + destruct (unpack2 (split (text (nth_error f 4)))) as [[ylo yhi]|[]] eqn:Ey;
        cbn [bind]; try reflexivity.
      exfalso. clear - Ey.
      unfold unpack2 in Ey.
      destruct (split (text (nth_error f 4))) as [|a [|b [|c l]]];
        try discriminate Ey.
      destruct (float_of_string a), (float_of_string b); discriminate Ey.
    + exfalso. clear - Ex.
      unfold unpack2 in Ex.
      destruct (split (text (nth_error f 3))) as [|a [|b [|c l]]];
        try discriminate Ex.
      destruct (float_of_string a), (float_of_string b); discriminate Ex.
  - reflexivity.
  - exfalso. clear - En.
    destruct (PyInt.int (strip (text (nth_error f 1)))); discriminate En.
Qed.

Lemma wanted_frame_cut_short_raises_witness :
  process_dump_file default_config run_src
    ["ITEM: TIMESTEP"; "100"; "ITEM: NUMBER OF ATOMS"; "3";
     "ITEM: BOX BOUNDS pp pp pp"; "0 10"; "0 5"]
  = Raises ValueError.
Proof.
  destruct (range 0 (MAX_TIMESTEP default_config + 1)
              (TIMESTEP_INTERVAL default_config)) as [desired|e] eqn:Hd.
  - vm_compute in Hd. injection Hd as Hd.
    apply (wanted_frame_cut_short_raises default_config run_src desired _
             ["ITEM: NUMBER OF ATOMS"; "3"; "ITEM: BOX BOUNDS pp pp pp";
              "0 10"; "0 5"]
             [] "ITEM: TIMESTEP" "100" 100).
    + rewrite <- Hd. vm_compute. reflexivity.
    + apply reaches_here.
    + vm_compute. reflexivity.
    + vm_compute. reflexivity.
    + rewrite <- Hd. vm_compute. reflexivity.
    + simpl. lia.
  - vm_compute in Hd. discriminate Hd.
Defined.

(** *** Atom lines *)

Lemma unpack3_length (toks : list string) (v : float * float * float) :
  unpack3 toks = Ok v -> length toks = 3%nat.
Proof.
  unfold unpack3.
  destruct toks as [|a [|b [|c [|d l]]]]; try discriminate. reflexivity.
Qed.

Lemma slice_length {A} (l : list A) (lo hi : nat) :
  length (slice l lo hi) = Nat.min (hi - lo) (length l - lo).
Proof.
  unfold slice. rewrite List.length_firstn, List.length_skipn. reflexivity.
Qed.

(** An atom line needs twelve fields: with fewer the line raises, an
    [IndexError] when there are fewer than two. *)
Lemma parse_atom_short (cfg : config) (line : option string) :
  (length (split (text line)) < 12)%nat ->
  (exists e, parse_atom cfg line = Raise e) /\
  ((length (split (text line)) < 2)%nat ->
   parse_atom cfg line = Raise IndexError).
Proof.
  intros Hlen. unfold parse_atom, item.
  destruct (nth_error (split (text line)) 1) as [ty|] eqn:E1; cbn [or_raise bind].
  - split.
    + destruct (unpack3 (slice (split (text line)) 2 5)) as [[[x0 y0] z0]|e]
        eqn:E2; cbn [bind]; [|exists e; reflexivity].
      destruct (unpack3 (slice (split (text line)) 8 11)) as [[[x1 y1] z1]|e]
        eqn:E3; cbn [bind]; [|exists e; reflexivity].
      assert (E4 : nth_error (split (text line)) 11 = None)
        by (apply nth_error_None; lia).
      rewrite E4. exists IndexError. reflexivity.
    + intros H2.
      assert (E0 : nth_error (split (text line)) 1 = None)
        by (apply nth_error_None; lia).
      congruence.
  - split; [exists IndexError; reflexivity|]. reflexivity.
Qed.

Lemma read_atoms_bad_line (cfg : config) (n : nat) :
  forall (f : stream) (acc : list atom) (tot : float) (i : nat) (l : string),
    (i < n)%nat ->
    nth_error f i = Some l ->
    (exists e, parse_atom cfg (Some l) = Raise e) ->
    exists e, read_atoms cfg n f acc tot = Raise e.
Proof.
  induction n as [|n IH]; intros f acc tot i l Hi Hl Hbad; [lia|].
  destruct f as [|l0 f]; [destruct i; discriminate Hl|].
  cbn [read_atoms readline].
  destruct i as [|i].
  - injection Hl as ->. destruct Hbad as [e He]. rewrite He.
    exists e. reflexivity.
  - destruct (parse_atom cfg (Some l0)) as [[a en]|e]; cbn [bind].
    + apply (IH f _ _ i l); [lia|exact Hl|exact Hbad].
    + exists e. reflexivity.
Qed.

(** X8. A wanted frame one of whose declared atom lines has fewer than
    twelve fields makes the call raise: no block is returned for any
    frame of the file. *)
Theorem short_atom_line_raises (cfg : config) (src : source)
    (file : stream) (desired : list Z) (results : list string)
    (marker tline l2 nline l4 xb yb zb l8 : string) (atoms : list string)
    (t n : Z) (i : nat) (l : string) :
  range 0 (MAX_TIMESTEP cfg + 1) (TIMESTEP_INTERVAL cfg) = Ok desired ->
  reaches cfg src desired (file, [])
    (marker :: tline :: l2 :: nline :: l4 :: xb :: yb :: zb :: l8 :: atoms,
     results) ->
  is_start marker = true ->
  PyInt.int (strip tline) = Some t ->
  mem t desired = true ->
  PyInt.int (strip nline) = Some n ->
  Z.of_nat i < n ->
  nth_error atoms i = Some l ->
  (length (split l) < 12)%nat ->
  exists e, process_dump_file cfg src file = Raises e.
Proof.
  intros Hd Hr Hm Ht Hsel Hn Hi Hl Hshort.
  unfold process_dump_file. rewrite Hd.
  rewrite (loop_from _ _ _ _ _ _ _ Hr). cbn [loop].
  rewrite (iteration_on_frame _ _ _ _ _ t _ _ Hm Ht), Hsel.
  rewrite parse_frame_eq. cbn [nth_error text skipn]. rewrite Hn.
  cbn [or_raise bind].
  destruct (unpack2 (split xb)) as [[xlo xhi]|e]; cbn [bind];
    [|exists e; reflexivity].
  destruct (unpack2 (split yb)) as [[ylo yhi]|e]; cbn [bind];
    [|exists e; reflexivity].
  destruct (unpack2 (split zb)) as [[zlo zhi]|e]; cbn [bind];
    [|exists e; reflexivity].
  change (skipn 0 atoms) with atoms.
  destruct (read_atoms_bad_line cfg (Z.to_nat n) atoms [] zero i l
              ltac:(lia) Hl (proj1 (parse_atom_short cfg (Some l) Hshort)))
    as [e He].
  rewrite He. exists e. reflexivity.
Qed.

Lemma short_atom_line_raises_witness :
  exists e,
    process_dump_file default_config run_src
      (header "100" "3" "0 10" "0 5" "0 2"
         ++ [atom1; "2 2 1.0 2.0 3.0 0.001 2.0 3.0 2.5"; atom3])%list
    = Raises e.
Proof.
  destruct (range 0 (MAX_TIMESTEP default_config + 1)
              (TIMESTEP_INTERVAL default_config)) as [desired|e] eqn:Hd.
  - vm_compute in Hd. injection Hd as Hd.
    apply (short_atom_line_raises default_config run_src _ desired []
             "ITEM: TIMESTEP" "100" "ITEM: NUMBER OF ATOMS" "3"
             "ITEM: BOX BOUNDS pp pp pp" "0 10" "0 5" "0 2"
             "ITEM: ATOMS id type x y z vx vy vz fx fy fz atom_energy"
             [atom1; "2 2 1.0 2.0 3.0 0.001 2.0 3.0 2.5"; atom3] 100 3 1
             "2 2 1.0 2.0 3.0 0.001 2.0 3.0 2.5").
    + rewrite <- Hd. vm_compute. reflexivity.
    + apply reaches_here.
    + vm_compute. reflexivity.
    + vm_compute. reflexivity.
    + rewrite <- Hd. vm_compute. reflexivity.
    + vm_compute. reflexivity.
    + lia.
    + reflexivity.
    + vm_compute. lia.
  - vm_compute in Hd. discriminate Hd.
Defined.

(** X9. Fields after the twelfth of an atom line are not read: two lines
    with the same first twelve fields give the same atom and energy, or
    the same exception. *)
Theorem extra_columns_ignored (cfg : config) (l1 l2 : string) :
  firstn 12 (split l1) = firstn 12 (split l2) ->
  parse_atom cfg (Some l1) = parse_atom cfg (Some l2).
Proof.
  intros H.
  assert (N : forall i, (i < 12)%nat ->
                        nth_error (split l1) i = nth_error (split l2) i).
  { intros i Hi.
    pose proof (List.nth_error_firstn 12 (split l1) i) as E1.
    pose proof (List.nth_error_firstn 12 (split l2) i) as E2.
    apply Nat.ltb_lt in Hi. rewrite Hi in E1, E2.
    rewrite <- E1, <- E2, H. reflexivity. }
  unfold parse_atom, item, slice. cbn [text].
  change (5 - 2)%nat with 3%nat. change (11 - 8)%nat with 3%nat.
  rewrite !firstn3_skipn.
  rewrite (N 1%nat), (N 2%nat), (N 3%nat), (N 4%nat), (N 8%nat), (N 9%nat),
    (N 10%nat), (N 11%nat) by lia.
  reflexivity.
Qed.

Lemma extra_columns_ignored_witness :
  parse_atom default_config (Some atom2)
  = parse_atom default_config
      (Some "2 2 1.0 2.0 3.0 0.0 0.0 0.0 0.001 2.0 3.0 2.5 17 xyz").
Proof.
  apply extra_columns_ignored. vm_compute. reflexivity.
Defined.

(** *** The header lines of a frame *)

(** X10. The full parse reads past the three header lines of a frame, the
    count header, the bounds header and the atoms header, without
    looking at them: any text there gives the same frame or the same
    exception. *)
Theorem header_text_not_checked (cfg : config) (t : Z)
    (h1 h2 h3 h1' h2' h3' count xb yb zb : string) (rest : stream) :
  parse_frame cfg t (h1 :: count :: h2 :: xb :: yb :: zb :: h3 :: rest)
  = parse_frame cfg t (h1' :: count :: h2' :: xb :: yb :: zb :: h3' :: rest).
Proof.
  rewrite !parse_frame_eq. reflexivity.
Qed.

Lemma parse_frame_parts (cfg : config) (t : Z)
    (f rest : stream) (fr : frame) :
  parse_frame cfg t f = Ok (fr, rest) ->
  exists (lines : list string) (parsed : list (atom * float)),
    skipn 7 f = (lines ++ rest)%list /\
    length lines = Z.to_nat (num_atoms fr) /\
    (Forall2 (fun l p => parse_atom cfg (Some l) = Ok p) lines parsed /\
     atoms_data fr = map fst parsed) /\
    total_energy fr = fold_left fadd (map snd parsed) zero.
Proof.
  intros H. apply parse_frame_ok in H.
  destruct H as (lines & parsed & Hf & Hlen & Hall & Hat & Htot & _).
  exists lines, parsed. repeat split; assumption.
Qed.

(** X11. A frame that declares no atom, or a negative number of them, reads
    no atom line: its block is its count, a line feed and its metadata
    line, with the energy [0.0], and nothing after it. *)
Theorem frame_without_atoms (cfg : config) (src : source) (t : Z)
    (f rest : stream) (fr : frame) :
  parse_frame cfg t f = Ok (fr, rest) ->
  num_atoms fr <= 0 ->
  rest = skipn 7 f /\
  atoms_data fr = [] /\
  frame_content src fr = [PyInt.str (num_atoms fr); metadata_line src fr] /\
  render src fr = PyInt.str (num_atoms fr) ++ nl ++ metadata_line src fr /\
  exists before,
    metadata_line src fr
    = before ++ "energy=0.0 pbc=" ++ dq ++ "T T T" ++ dq.
Proof.
  intros H Hn.
  destruct (parse_frame_parts cfg t f rest fr H)
    as (lines & parsed & Hf & Hlen & Hat & Htot).
  assert (L : lines = []).
  { destruct lines as [|l lines]; [reflexivity|]. simpl in Hlen. lia. }
  subst lines.
  assert (P : parsed = []).
  { destruct parsed as [|p parsed]; [reflexivity|].
    destruct Hat as [Hall _]. inversion Hall. }
  subst parsed. destruct Hat as [_ Hat]. cbn in Hat, Htot, Hf.
  assert (C : frame_content src fr
              = [PyInt.str (num_atoms fr); metadata_line src fr]).
  { unfold frame_content. rewrite Hat. reflexivity. }
  split; [symmetry; exact Hf|]. split; [exact Hat|].
  split; [exact C|].
  split; [unfold render; rewrite C; reflexivity|].
  exists ("Lattice=" ++ dq ++ lattice fr ++ dq ++ " "
          ++ "Properties=species:S:1:pos:R:3:forces:R:3 "
          ++ "name=Amorphous_Bulk category=" ++ category src (timestep fr)
          ++ " ").
  unfold metadata_line. rewrite Htot.
  repeat rewrite append_assoc. reflexivity.
Qed.

Lemma frame_without_atoms_witness :
  exists fr,
    parse_frame default_config 100
      (skipn 2 (header "100" "-3" "0 10" "0 5" "0 2") ++ [atom1])%list
    = Ok (fr, [atom1]) /\
    atoms_data fr = [] /\
    frame_content run_src fr = [PyInt.str (num_atoms fr); metadata_line run_src fr] /\
    render run_src fr = PyInt.str (num_atoms fr) ++ nl ++ metadata_line run_src fr /\
    exists before,
      metadata_line run_src fr
      = before ++ "energy=0.0 pbc=" ++ dq ++ "T T T" ++ dq.
Proof.
  eexists. split; [vm_compute; reflexivity|].
  apply (frame_without_atoms default_config run_src 100
           (skipn 2 (header "100" "-3" "0 10" "0 5" "0 2") ++ [atom1])%list
           [atom1]).
  - vm_compute. reflexivity.
  - vm_compute. discriminate.
Defined.

(** *** Blocks are only added *)

Lemma iteration_appends (cfg : config) (src : source) (desired : list Z)
    (f : stream) (results : list string) :
  match iteration cfg src desired f results with
  | Continue _ results' => exists added, results' = (results ++ added)%list
  | Break results' => results' = results
  | Raised _ => True
  end.
Proof.
  unfold iteration. destruct (readline f) as [[line|] f1]; [|reflexivity].
  destruct (contains "ITEM: TIMESTEP" line); cbn [negb].
  - destruct (readline f1) as [tline f2].
    destruct (PyInt.int (strip (text tline))) as [t|]; [|exact I].
    destruct (mem t desired); cbn [negb].
    + destruct (parse_frame cfg t f2) as [[fr f3]|e]; [|exact I].
      eexists. reflexivity.
    + destruct (skip_frame f2) as [[|f3]|e]; [reflexivity| |exact I].
      exists []. symmetry. apply app_nil_r.
  - exists []. symmetry. apply app_nil_r.
Qed.

Lemma loop_extends (cfg : config) (src : source) (desired : list Z) :
  forall (fuel : nat) (f : stream) (results final : list string),
    loop fuel cfg src desired f results = Returns final ->
    exists added, final = (results ++ added)%list.
Proof.
  induction fuel as [|fuel IH]; intros f results final H; [discriminate H|].
  cbn [loop] in H. pose proof (iteration_appends cfg src desired f results) as A.
  destruct (iteration cfg src desired f results) as [f' r'|r'|e].
  - destruct A as [a1 ->]. destruct (IH _ _ _ H) as [a2 ->].
    exists (a1 ++ a2)%list. symmetry. apply app_assoc.
  - injection H as <-. subst r'. exists []. symmetry. apply app_nil_r.
  - discriminate H.
Qed.

(** X12. A block once collected is never dropped or changed: what the call
    returns starts with the blocks it had at any earlier point of the
    scan. *)
Theorem collected_blocks_kept (cfg : config) (src : source) (desired : list Z)
    (file f : stream) (results final : list string) :
  range 0 (MAX_TIMESTEP cfg + 1) (TIMESTEP_INTERVAL cfg) = Ok desired ->
  reaches cfg src desired (file, []) (f, results) ->
  process_dump_file cfg src file = Returns final ->
  exists added, final = (results ++ added)%list.
Proof.
  intros Hd Hr. unfold process_dump_file. rewrite Hd.
  rewrite (loop_from _ _ _ _ _ _ _ Hr). apply loop_extends.
Qed.

Lemma collected_blocks_kept_witness :
  exists results final added,
    process_dump_file default_config run_src (frame3 "0") = Returns results /\
    process_dump_file default_config run_src
      (frame3 "0" ++ frame3 "50" ++ frame3 "100")%list = Returns final /\
    final = (results ++ added)%list.
Proof.
  destruct (range 0 (MAX_TIMESTEP default_config + 1)
              (TIMESTEP_INTERVAL default_config)) as [desired|e] eqn:Hd;
    [|vm_compute in Hd; discriminate Hd].
  destruct (process_dump_file default_config run_src (frame3 "0"))
    as [results| |] eqn:H0;
    [|vm_compute in H0; discriminate H0|vm_compute in H0; discriminate H0].
  destruct (process_dump_file default_config run_src
              (frame3 "0" ++ frame3 "50" ++ frame3 "100")%list)
    as [final| |] eqn:Hp;
    [|vm_compute in Hp; discriminate Hp|vm_compute in Hp; discriminate Hp].
  assert (Hr : reaches default_config run_src desired
                 ((frame3 "0" ++ frame3 "50" ++ frame3 "100")%list, [])
                 ((frame3 "50" ++ frame3 "100")%list, results)).
  { vm_compute in Hd. injection Hd as Hd.
    vm_compute in H0. injection H0 as H0.
    eapply reaches_step; [rewrite <- Hd; vm_compute; reflexivity|].
    rewrite <- H0. apply reaches_here. }
  destruct (collected_blocks_kept default_config run_src desired _ _ _ final
              Hd Hr Hp) as [added Ha].
  exists results, final, added. repeat split. exact Ha.
Defined.

(** *** Reading the count back *)

Lemma digit_val_char (d : Z) : 0 <= d < 10 -> digit_val (digit_char d) = d.
Proof.
  intros H.
  assert (E : d = 0 \/ d = 1 \/ d = 2 \/ d = 3 \/ d = 4 \/ d = 5 \/ d = 6
              \/ d = 7 \/ d = 8 \/ d = 9) by lia.
  repeat (destruct E as [-> | E]; [reflexivity|]). subst d. reflexivity.
Qed.

Lemma digitpart_from_digit (a c : Z) (p : bool) (d : Z) (s : string) :
  0 <= d < 10 ->
  PyInt.digitpart_from a c p (String (digit_char d) s)
  = PyInt.digitpart_from (10 * a + d) (c + 1) true s.
Proof.
  intros H. cbn [PyInt.digitpart_from].
  rewrite (digit_char_isdigit d H), (digit_val_char d H). reflexivity.
Qed.

(** Reading the digits that [digits_from] writes in front of [acc]. *)
Lemma digits_from_read (fuel : nat) :
  forall (n : Z) (acc : string),
    0 <= n < 10 ^ Z.of_nat (S fuel) ->
    exists k, 0 < k /\
      forall a c p,
        PyInt.digitpart_from a c p (PyInt.digits_from (S fuel) n acc)
        = PyInt.digitpart_from (a * 10 ^ k + n) (c + k) true acc.
Proof.
  induction fuel as [|fuel IH]; intros n acc Hn;
    assert (Hd : 0 <= n mod 10 < 10) by (apply Z.mod_pos_bound; lia);
    cbn [PyInt.digits_from]; destruct (n <? 10) eqn:E.
  - apply Z.ltb_lt in E. exists 1. split; [lia|]. intros a c p.
    rewrite (digitpart_from_digit _ _ _ _ _ Hd).
    rewrite Z.mod_small by lia. f_equal. lia.
  - apply Z.ltb_ge in E. change (10 ^ Z.of_nat 1) with 10 in Hn. lia.
  - apply Z.ltb_lt in E. exists 1. split; [lia|]. intros a c p.
    rewrite (digitpart_from_digit _ _ _ _ _ Hd).
    rewrite Z.mod_small by lia. f_equal. lia.
  - apply Z.ltb_ge in E.
    assert (Hq : 0 <= n / 10 < 10 ^ Z.of_nat (S fuel)).
    { split; [apply Z.div_pos; lia|].
      apply Z.div_lt_upper_bound; [lia|].
      rewrite (Nat2Z.inj_succ (S fuel)), Z.pow_succ_r in Hn by lia. lia. }
    destruct (IH (n / 10) (String (digit_char (n mod 10)) acc) Hq)
      as (k & Hk & Hr).
    exists (k + 1). split; [lia|]. intros a c p.
    change (PyInt.digitpart_from a c p
              (PyInt.digits_from (S fuel) (n / 10)
                 (String (digit_char (n mod 10)) acc))
            = PyInt.digitpart_from (a * 10 ^ (k + 1) + n) (c + (k + 1)) true acc).
    rewrite Hr, (digitpart_from_digit _ _ _ _ _ Hd).
    rewrite Z.pow_add_r by lia.
    pose proof (Z.div_mod n 10 ltac:(lia)) as Hdm.
    f_equal; lia.
Qed.

Lemma digits_fuel (n : Z) :
  0 <= n -> n < 10 ^ Z.of_nat (S (Z.to_nat (Z.log2 n))).
Proof.
  intros Hn. rewrite Nat2Z.inj_succ, Z2Nat.id by apply Z.log2_nonneg.
  destruct (Z.eq_dec n 0) as [->|Hne]; [reflexivity|].
  assert (Hlt : n < 2 ^ Z.succ (Z.log2 n)) by (apply Z.log2_spec; lia).
  assert (Hle : 2 ^ Z.succ (Z.log2 n) <= 10 ^ Z.succ (Z.log2 n)).
  { apply Z.pow_le_mono_l. lia. }
  lia.
Qed.

Lemma digitpart_digits (n : Z) :
  0 <= n -> exists k, PyInt.digitpart (PyInt.digits n) = Some (n, k).
Proof.
  intros Hn. unfold PyInt.digitpart, PyInt.digits.
  destruct (digits_from_read (Z.to_nat (Z.log2 n)) n EmptyString
              (conj Hn (digits_fuel n Hn))) as (k & _ & Hr).
  rewrite Hr. exists (0 + k). reflexivity.
Qed.

Lemma isdigit_not_space (c : ascii) : isdigit c = true -> isspace c = false.
Proof.
  destruct c as [[] [] [] [] [] [] [] []]; try reflexivity; discriminate.
Qed.

Lemma rstrip_no_space (s : string) :
  all_chars (fun c => negb (isspace c)) s = true -> rstrip s = s.
Proof.
  induction s as [|c s IH]; intros H; [reflexivity|].
  cbn [all_chars] in H. apply andb_true_iff in H. destruct H as [Hc Hs].
  cbn [rstrip]. rewrite (IH Hs).
  apply negb_true_iff in Hc. rewrite Hc. destruct s; reflexivity.
Qed.

Lemma strip_no_space (s : string) :
  all_chars (fun c => negb (isspace c)) s = true -> strip s = s.
Proof.
  intros H. unfold strip.
  assert (L : lstrip s = s).
  { destruct s as [|c s]; [reflexivity|]. cbn [all_chars] in H.
    apply andb_true_iff in H. destruct H as [Hc _].
    apply negb_true_iff in Hc. cbn [lstrip]. rewrite Hc. reflexivity. }
  rewrite L. apply rstrip_no_space. exact H.
Qed.

Lemma all_chars_weaken (p q : ascii -> bool) (s : string) :
  (forall c, p c = true -> q c = true) ->
  all_chars p s = true -> all_chars q s = true.
Proof.
  intros Hpq. induction s as [|c s IH]; intros H; [reflexivity|].
  cbn [all_chars] in *. apply andb_true_iff in H. destruct H as [Hc Hs].
  rewrite (Hpq c Hc), (IH Hs). reflexivity.
Qed.

Lemma digits_no_space (n : Z) :
  all_chars (fun c => negb (isspace c)) (PyInt.digits n) = true.
Proof.
  apply (all_chars_weaken isdigit); [|apply digits_all].
  intros c Hc. rewrite (isdigit_not_space c Hc). reflexivity.
Qed.

Lemma take_sign_digits (n : Z) :
  PyInt.take_sign (PyInt.digits n) = (false, PyInt.digits n).
Proof.
  pose proof (digits_all n) as Ha. pose proof (digits_nonempty n) as Hne.
  destruct (PyInt.digits n) as [|c s]; [contradiction|].
  cbn [all_chars] in Ha. apply andb_true_iff in Ha. destruct Ha as [Hc _].
  destruct c as [[] [] [] [] [] [] [] []]; try reflexivity; discriminate Hc.
Qed.

(** [int] reads back what [str] writes. *)
Lemma int_str (n : Z) : PyInt.int (PyInt.str n) = Some n.
Proof.
  unfold PyInt.int, PyInt.str. destruct (n <? 0) eqn:E.
  - apply Z.ltb_lt in E.
    change ("-" ++ PyInt.digits (- n)) with (String "-" (PyInt.digits (- n))).
    rewrite strip_no_space.
    + cbn [PyInt.take_sign].
      destruct (digitpart_digits (- n) ltac:(lia)) as [k Hk]. rewrite Hk.
      f_equal. lia.
    + cbn [all_chars]. rewrite digits_no_space. reflexivity.
  - apply Z.ltb_ge in E.
    rewrite strip_no_space by apply digits_no_space.
    rewrite take_sign_digits.
    destruct (digitpart_digits n E) as [k Hk]. rewrite Hk. reflexivity.
Qed.

(** X13. The first line of a block reads back, with [int], as the atom count
    that the frame declared, and the timestep that ends the category
    reads back as the timestep of the frame. *)
Theorem count_reads_back (cfg : config) (src : source) (t : Z)
    (f rest : stream) (fr : frame) :
  parse_frame cfg t f = Ok (fr, rest) ->
  exists first others,
    frame_content src fr = first :: others /\
    PyInt.int first = PyInt.int (strip (text (nth_error f 1))) /\
    PyInt.int first = Some (num_atoms fr) /\
    exists stem tail,
      category src (timestep fr) = stem ++ "-" ++ tail /\
      PyInt.int tail = Some t.
Proof.
  intros H. apply parse_frame_ok in H.
  destruct H as (lines & parsed & _ & _ & _ & _ & _ & Ht & Hn).
  exists (PyInt.str (num_atoms fr)),
    (metadata_line src fr :: map atom_line (atoms_data fr)).
  split; [reflexivity|]. rewrite Hn, int_str.
  split; [reflexivity|]. split; [reflexivity|].
  rewrite Ht. unfold category.
  destruct (negb (String.eqb (rel_path src) ".")).
  - exists (rel_path src ++ "/" ++ base_name src), (PyInt.str t).
    split; [|apply int_str]. repeat rewrite append_assoc. reflexivity.
  - exists (base_name src), (PyInt.str t). split; [reflexivity|apply int_str].
Qed.

Lemma count_reads_back_witness :
  exists fr first others,
    parse_frame default_config 200 (skipn 2 (frame3 "200")) = Ok (fr, []) /\
    frame_content {| base_name := "run"; rel_path := "set-a" |} fr
    = first :: others /\
    PyInt.int first = PyInt.int (strip (text (nth_error (skipn 2 (frame3 "200")) 1))) /\
    PyInt.int first = Some (num_atoms fr) /\
    exists stem tail,
      category {| base_name := "run"; rel_path := "set-a" |} (timestep fr)
      = stem ++ "-" ++ tail /\
      PyInt.int tail = Some 200.
Proof.
  eexists.
  destruct (count_reads_back default_config
              {| base_name := "run"; rel_path := "set-a" |} 200
              (skipn 2 (frame3 "200")) [] _ ltac:(vm_compute; reflexivity))
    as (first & others & H).
  exists first, others. split; [vm_compute; reflexivity|exact H].
Defined.

(** ** Finding the dumps and writing the output *)

Lemma endswith_app (suffix a b : string) :
  endswith suffix b = true -> endswith suffix (a ++ b) = true.
Proof.
  intros H. induction a as [|c a IH]; [exact H|].
  rewrite append_cons. cbn [endswith]. rewrite IH. apply orb_true_r.
Qed.

Lemma endswith_path_join (suffix a b : string) :
  endswith suffix b = true -> endswith suffix (path_join a b) = true.
Proof.
  intros H. unfold path_join.
  destruct (String.prefix "/" b); [exact H|].
  destruct (String.eqb a "" || endswith "/" a).
  - apply endswith_app. exact H.
  - apply endswith_app. apply (endswith_app suffix "/" b). exact H.
Qed.

Lemma scan_directory_eq (dirpath : string) (filenames : list string) :
  forall dump_files,
    scan_directory dirpath filenames dump_files
    = (dump_files
         ++ map (path_join dirpath) (List.filter (endswith ".dump") filenames))%list.
Proof.
  unfold scan_directory.
  induction filenames as [|name names IH]; intros acc.
  - cbn. symmetry. apply app_nil_r.
  - cbn [fold_left List.filter]. rewrite IH.
    destruct (endswith ".dump" name).
    + cbn [map]. rewrite <- app_assoc. reflexivity.
    + reflexivity.
Qed.

Lemma find_dump_files_from (walk : list walked) :
  forall dump_files,
    fold_left
      (fun dump_files '(dirpath, _, filenames) =>
         scan_directory dirpath filenames dump_files)
      walk dump_files
    = (dump_files
         ++ flat_map
              (fun '(dirpath, _, filenames) =>
                 map (path_join dirpath)
                   (List.filter (endswith ".dump") filenames))
              walk)%list.
Proof.
  induction walk as [|[[dirpath dirnames] filenames] walk IH]; intros acc.
  - cbn. symmetry. apply app_nil_r.
  - cbn [fold_left flat_map]. rewrite IH, scan_directory_eq.
    rewrite <- app_assoc. reflexivity.
Qed.

Lemma found_is_dump_file (walk : list walked) (path : string) :
  In path (find_dump_files walk) <->
  exists dirpath dirnames filenames filename,
    In (dirpath, dirnames, filenames) walk /\
    In filename filenames /\
    endswith ".dump" filename = true /\
    path = path_join dirpath filename.
Proof.
  unfold find_dump_files. rewrite find_dump_files_from. cbn [app].
  rewrite in_flat_map. split.
  - intros ([[d ds] fs] & Hw & Hin). apply in_map_iff in Hin.
    destruct Hin as (name & <- & Hf). apply filter_In in Hf.
    destruct Hf as [Hname Hend].
    exists d, ds, fs, name. repeat split; assumption.
  - intros (d & ds & fs & name & Hw & Hname & Hend & ->).
    exists (d, ds, fs). split; [exact Hw|].
    apply in_map. apply filter_In. split; assumption.
Qed.

(** X14. [find_dump_files] returns, directory by directory in the order of
    the walk and name by name in the order of each directory, the joined
    paths of the file names that end in [.dump], and no other path. *)
Theorem find_dump_files_in_walk_order (walk : list walked) :
  find_dump_files walk
  = flat_map
      (fun '(dirpath, _, filenames) =>
         map (path_join dirpath) (List.filter (endswith ".dump") filenames))
      walk.
Proof.
  unfold find_dump_files. rewrite find_dump_files_from. reflexivity.
Qed.

(** X15. A path is found exactly when it is the join of a walked directory
    and one of its file names ending in [.dump]; every path found ends
    in [.dump] itself. Directory names ending in [.dump] are not
    returned. *)
Theorem found_iff_dump_file (walk : list walked) (path : string) :
  (In path (find_dump_files walk) <->
   exists dirpath dirnames filenames filename,
     In (dirpath, dirnames, filenames) walk /\
     In filename filenames /\
     endswith ".dump" filename = true /\
     path = path_join dirpath filename) /\
  (In path (find_dump_files walk) -> endswith ".dump" path = true).
Proof.
  pose proof (found_is_dump_file walk path) as E.
  split; [exact E|].
  intros H. apply E in H. destruct H as (d & ds & fs & name & _ & _ & Hend & ->).
  apply endswith_path_join. exact Hend.
Qed.

Lemma found_iff_dump_file_witness :
  In "./lammps/sub/c.dump"
    (find_dump_files
       [("./lammps", ["sub"; "old.dump"], ["a.dump"; "notes.txt"]);
        ("./lammps/sub", [], ["c.dump"; "c.dump.bak"])]) /\
  endswith ".dump" "./lammps/sub/c.dump" = true.
Proof.
  destruct (found_iff_dump_file
              [("./lammps", ["sub"; "old.dump"], ["a.dump"; "notes.txt"]);
               ("./lammps/sub", [], ["c.dump"; "c.dump.bak"])]
              "./lammps/sub/c.dump") as [[_ H] Hend].
  assert (Hin : In "./lammps/sub/c.dump"
                  (find_dump_files
                     [("./lammps", ["sub"; "old.dump"], ["a.dump"; "notes.txt"]);
                      ("./lammps/sub", [], ["c.dump"; "c.dump.bak"])])).
  { apply H. exists "./lammps/sub", [], ["c.dump"; "c.dump.bak"], "c.dump".
    split; [right; left; reflexivity|].
    split; [left; reflexivity|].
    split; vm_compute; reflexivity. }
  split; [exact Hin|exact (Hend Hin)].
Defined.

(** *** [main] *)

Lemma write_file_eq (file_results : list string) :
  forall (text : string) (total : nat),
    write_file file_results (text, total)
    = (text ++ blocks_text file_results, (total + length file_results)%nat).
Proof.
  unfold write_file.
  induction file_results as [|frame frames IH]; intros text total.
  - cbn. rewrite append_nil_r, Nat.add_0_r. reflexivity.
  - cbn [fold_left blocks_text length]. rewrite IH.
    f_equal; [|lia]. repeat rewrite append_assoc. reflexivity.
Qed.

Lemma blocks_text_app (a b : list string) :
  blocks_text (a ++ b) = blocks_text a ++ blocks_text b.
Proof.
  induction a as [|x a IH]; [reflexivity|].
  cbn [app blocks_text]. rewrite IH. repeat rewrite append_assoc. reflexivity.
Qed.

Lemma write_all_from (all_results : list (list string)) :
  forall (text : string) (total : nat),
    fold_left (fun st file_results => write_file file_results st)
      all_results (text, total)
    = (text ++ blocks_text (concat all_results),
       (total + length (concat all_results))%nat).
Proof.
  induction all_results as [|r rs IH]; intros text total.
  - cbn. rewrite append_nil_r, Nat.add_0_r. reflexivity.
  - cbn [fold_left concat]. rewrite write_file_eq, IH.
    rewrite blocks_text_app, length_app, append_assoc.
    f_equal. lia.
Qed.

Lemma write_all_eq (all_results : list (list string)) :
  write_all all_results
  = (blocks_text (concat all_results), length (concat all_results)).
Proof.
  unfold write_all. rewrite write_all_from. reflexivity.
Qed.

Lemma returned_some (runs : list run) (all_results : list (list string)) :
  returned runs = Some all_results ->
  runs = map Returns all_results /\ failures runs = [].
Proof.
  revert all_results. induction runs as [|r runs IH]; intros all H.
  - injection H as <-. split; reflexivity.
  - destruct r as [results|e|]; cbn [returned] in H; try discriminate H.
    destruct (returned runs) as [all'|]; [|discriminate H].
    injection H as <-. destruct (IH all' eq_refl) as [-> Hf].
    split; [reflexivity|exact Hf].
Qed.

Lemma returned_none (runs : list run) :
  Forall (fun r => r <> OutOfFuel) runs ->
  returned runs = None -> failures runs <> [].
Proof.
  induction runs as [|r runs IH]; intros Hall H; [discriminate H|].
  inversion Hall as [|? ? Hr Hrs]; subst.
  destruct r as [results|e|]; cbn [returned failures] in *.
  - destruct (returned runs); [discriminate H|]. apply (IH Hrs eq_refl).
  - discriminate.
  - contradiction.
Qed.

Lemma failures_in (runs : list run) (e : exn) :
  In (Raises e) runs -> In e (failures runs).
Proof.
  induction runs as [|r runs IH]; intros H; [contradiction|].
  destruct H as [->|H].
  - left. reflexivity.
  - destruct r; cbn [failures]; [apply IH; exact H|right; apply IH; exact H
                                |apply IH; exact H].
Qed.

Lemma returned_with_raise (runs : list run) (e : exn) :
  In (Raises e) runs -> returned runs = None.
Proof.
  induction runs as [|r runs IH]; intros H; [contradiction|].
  destruct H as [->|H]; [reflexivity|].
  destruct r; cbn [returned]; [rewrite (IH H)|..]; reflexivity.
Qed.

(** X16. When no file name under the input directory ends in [.dump], [main]
    prints that it found none and stops: it starts no worker and does
    not open the output file, so a file of that name is left as it is. *)
Theorem main_without_dumps (cfg : config) (walk : list walked)
    (describe : string -> source) (read : string -> stream) :
  (forall dirpath dirnames filenames filename,
      In (dirpath, dirnames, filenames) walk -> In filename filenames ->
      endswith ".dump" filename = false) ->
  main cfg walk describe read = ([PrintNoFiles], Finished).
Proof.
  intros H. unfold main.
  destruct (find_dump_files walk) as [|p ps] eqn:E; [reflexivity|].
  exfalso.
  destruct (found_is_dump_file walk p) as [Hin _].
  destruct Hin as (d & ds & fs & name & Hw & Hname & Hend & _).
  - rewrite E. left. reflexivity.
  - rewrite (H d ds fs name Hw Hname) in Hend. discriminate Hend.
Qed.

Lemma main_without_dumps_witness :
  main default_config
    [("./lammps", ["run.dump"], ["notes.txt"; "run.dump.gz"]);
     ("./lammps/run.dump", [], [])]
    (fun _ => run_src) (fun _ => frame3 "0")
  = ([PrintNoFiles], Finished).
Proof.
  apply main_without_dumps.
  intros d ds fs name [[= <- <- <-]|[[= <- <- <-]|[]]] Hn.
  - destruct Hn as [<-|[<-|[]]]; vm_compute; reflexivity.
  - destruct Hn.
Defined.

(** X17. When every worker returns, [main] writes the output once: the
    blocks of the first file found, then those of the second, and so on,
    each block followed by a line feed; the number of frames it reports
    is the number of blocks written. *)
Theorem main_writes_blocks_in_order (cfg : config) (walk : list walked)
    (describe : string -> source) (read : string -> stream)
    (all_results : list (list string)) :
  find_dump_files walk <> [] ->
  map (fun dump_file =>
         process_dump_file cfg (describe dump_file) (read dump_file))
    (find_dump_files walk)
  = map Returns all_results ->
  main cfg walk describe read
  = ([PrintFound (length (find_dump_files walk)); PrintMapping;
      WriteOutput (blocks_text (concat all_results));
      PrintComplete (length (find_dump_files walk))
        (length (concat all_results))],
     Finished).
Proof.
  intros Hne Hruns. unfold main.
  destruct (find_dump_files walk) as [|p ps] eqn:E; [contradiction|].
  rewrite Hruns.
  assert (R : returned (map Returns all_results) = Some all_results).
  { clear. induction all_results as [|r rs IH]; [reflexivity|].
    cbn [map returned]. rewrite IH. reflexivity. }
  rewrite R, write_all_eq. reflexivity.
Qed.

Lemma main_writes_blocks_in_order_witness :
  exists all_results,
    main default_config [("./lammps", [], ["a.dump"; "b.dump"])]
      (fun _ => run_src)
      (fun p => if String.eqb p "./lammps/a.dump" then frame3 "0"
                else (frame3 "50" ++ frame1 "100")%list)
    = ([PrintFound 2; PrintMapping;
        WriteOutput (blocks_text (concat all_results));
        PrintComplete 2 (length (concat all_results))],
       Finished).
Proof.
  exists [match process_dump_file default_config run_src (frame3 "0") with
          | Returns results => results
          | _ => []
          end;
          match process_dump_file default_config run_src
                  (frame3 "50" ++ frame1 "100")%list with
          | Returns results => results
          | _ => []
          end].
  apply (main_writes_blocks_in_order default_config
           [("./lammps", [], ["a.dump"; "b.dump"])]).
  - vm_compute. discriminate.
  - vm_compute. reflexivity.
Defined.

(** X18. When a worker raises, [main] raises after its first two messages:
    the output file is not opened and nothing is written, whatever the
    other workers returned. The exception is one that a worker raised. *)
Theorem main_failure_writes_nothing (cfg : config) (walk : list walked)
    (describe : string -> source) (read : string -> stream)
    (dump_file : string) (e : exn) :
  In dump_file (find_dump_files walk) ->
  process_dump_file cfg (describe dump_file) (read dump_file) = Raises e ->
  exists candidates,
    main cfg walk describe read
    = ([PrintFound (length (find_dump_files walk)); PrintMapping],
       Failed candidates) /\
    In e candidates /\
    forall e', In e' candidates ->
      exists dump_file',
        In dump_file' (find_dump_files walk) /\
        process_dump_file cfg (describe dump_file') (read dump_file')
        = Raises e'.
Proof.
  intros Hin He. unfold main.
  destruct (find_dump_files walk) as [|p ps] eqn:E; [contradiction|].
  set (runs := map (fun dump_file0 =>
                      process_dump_file cfg (describe dump_file0)
                        (read dump_file0)) (p :: ps)).
  assert (Hr : In (Raises e) runs).
  { unfold runs. rewrite <- He.
    exact (in_map (fun d => process_dump_file cfg (describe d) (read d))
             (p :: ps) dump_file Hin). }
  rewrite (returned_with_raise runs e Hr).
  exists (failures runs). split; [reflexivity|].
  split; [apply failures_in; exact Hr|].
  intros e' He'. unfold runs in He'. clear - He'.
  induction (p :: ps) as [|q qs IH]; [contradiction|].
  cbn [map failures] in He'.
  destruct (process_dump_file cfg (describe q) (read q)) as [r|e0|] eqn:Eq.
  - destruct (IH He') as (d & Hd & Hp). exists d. split; [right|]; assumption.
  - destruct He' as [<-|He'].
    + exists q. split; [left; reflexivity|exact Eq].
    + destruct (IH He') as (d & Hd & Hp). exists d. split; [right|]; assumption.
  - destruct (IH He') as (d & Hd & Hp). exists d. split; [right|]; assumption.
Qed.

Lemma main_failure_writes_nothing_witness :
  exists candidates,
    main default_config [("./lammps", [], ["a.dump"; "b.dump"])]
      (fun _ => run_src)
      (fun p => if String.eqb p "./lammps/a.dump" then frame3 "0"
                else ["ITEM: TIMESTEP"; "100"; "ITEM: NUMBER OF ATOMS"])
    = ([PrintFound
          (length (find_dump_files [("./lammps", [], ["a.dump"; "b.dump"])]));
        PrintMapping],
       Failed candidates) /\
    In ValueError candidates.
Proof.
  destruct (main_failure_writes_nothing default_config
              [("./lammps", [], ["a.dump"; "b.dump"])]
              (fun _ => run_src)
              (fun p => if String.eqb p "./lammps/a.dump" then frame3 "0"
                        else ["ITEM: TIMESTEP"; "100"; "ITEM: NUMBER OF ATOMS"])
              "./lammps/b.dump" ValueError)
    as (candidates & Hm & Hin & _).
  - vm_compute. right. left. reflexivity.
  - vm_compute. reflexivity.
  - exists candidates. split; [exact Hm|exact Hin].
Defined.

(** ** The timestep test, the type map, the numbers and the lines of a
    block *)

(** C2. For a positive stride [s = TIMESTEP_INTERVAL], a bound
    [m = MAX_TIMESTEP] and a frame whose timestep line reads [t]: the
    call scans with the list [range(0, m + 1, s)]; [t] is in that list
    exactly when [0 <= t <= m] and [t mod s = 0]; when that holds the
    iteration on the frame is the full parse of the frame, and when it
    does not hold it is the skip path. *)
Theorem selected_iff (cfg : config) (src : source) (marker tline : string)
    (t : Z) (f : stream) (results : list string) :
  0 < TIMESTEP_INTERVAL cfg ->
  contains "ITEM: TIMESTEP" marker = true ->
  PyInt.int (strip tline) = Some t ->
  exists desired_timesteps,
    range 0 (MAX_TIMESTEP cfg + 1) (TIMESTEP_INTERVAL cfg)
    = Ok desired_timesteps /\
    (forall file,
        process_dump_file cfg src file
        = loop (S (length file)) cfg src desired_timesteps file []) /\
    (mem t desired_timesteps = true <->
     0 <= t <= MAX_TIMESTEP cfg /\ t mod TIMESTEP_INTERVAL cfg = 0) /\
    (0 <= t <= MAX_TIMESTEP cfg /\ t mod TIMESTEP_INTERVAL cfg = 0 ->
     iteration cfg src desired_timesteps (marker :: tline :: f) results
     = match parse_frame cfg t f with
       | Raise e => Raised e
       | Ok (fr, f') => Continue f' (results ++ [render src fr])
       end) /\
    (~ (0 <= t <= MAX_TIMESTEP cfg /\ t mod TIMESTEP_INTERVAL cfg = 0) ->
     iteration cfg src desired_timesteps (marker :: tline :: f) results
     = match skip_frame f with
       | Raise e => Raised e
       | Ok SkipBreak => Break results
       | Ok (SkipContinue f') => Continue f' results
       end).
Proof.
  intros Hs Hm Ht.
  destruct (range_selects (TIMESTEP_INTERVAL cfg) (MAX_TIMESTEP cfg) t Hs)
    as (desired & Hd & Hiff).
  exists desired. split; [exact Hd|].
  split; [intros file; unfold process_dump_file; rewrite Hd; reflexivity|].
  split; [exact Hiff|].
  rewrite (iteration_on_frame cfg src desired marker tline t f results Hm Ht).
  split; intros H.
  - apply Hiff in H. rewrite H. reflexivity.
  - destruct (mem t desired) eqn:E; [|reflexivity].
    exfalso. apply H. apply Hiff. reflexivity.
Qed.

Lemma selected_iff_witness :
  0 < TIMESTEP_INTERVAL default_config /\
  exists desired_timesteps,
    range 0 (MAX_TIMESTEP default_config + 1)
      (TIMESTEP_INTERVAL default_config) = Ok desired_timesteps /\
    (forall file,
        process_dump_file default_config run_src file
        = loop (S (length file)) default_config run_src desired_timesteps
            file []) /\
    (mem 300 desired_timesteps = true <->
     0 <= 300 <= MAX_TIMESTEP default_config
     /\ 300 mod TIMESTEP_INTERVAL default_config = 0) /\
    (0 <= 300 <= MAX_TIMESTEP default_config
     /\ 300 mod TIMESTEP_INTERVAL default_config = 0 ->
     iteration default_config run_src desired_timesteps
       ("ITEM: TIMESTEP" :: "300" :: skipn 2 (frame3 "300")) []
     = match parse_frame default_config 300 (skipn 2 (frame3 "300")) with
       | Raise e => Raised e
       | Ok (fr, f') => Continue f' ([] ++ [render run_src fr])
       end) /\
    (~ (0 <= 300 <= MAX_TIMESTEP default_config
        /\ 300 mod TIMESTEP_INTERVAL default_config = 0) ->
     iteration default_config run_src desired_timesteps
       ("ITEM: TIMESTEP" :: "300" :: skipn 2 (frame3 "300")) []
     = match skip_frame (skipn 2 (frame3 "300")) with
       | Raise e => Raised e
       | Ok SkipBreak => Break []
       | Ok (SkipContinue f') => Continue f' []
       end).
Proof.
  split; [reflexivity|].
  apply (selected_iff default_config run_src "ITEM: TIMESTEP" "300" 300).
  - reflexivity.
  - vm_compute. reflexivity.
  - vm_compute. reflexivity.
Defined.

(** C7. The species of an atom that parses is the lookup of the second
    field of its line, [parts[1]], in the type map: the label "X" when
    the map does not have that token, the mapped label when it has. The
    lookup never fails: a line that parses with one map parses with every
    map, to the same numbers and energy, the label apart. *)
Theorem type_lookup_never_fails (cfg : config) (line : option string)
    (a : atom) (energy : float) :
  parse_atom cfg line = Ok (a, energy) ->
  exists atom_type,
    nth_error (split (text line)) 1 = Some atom_type /\
    mapped_type a = type_map_get (ATOM_TYPE_MAP cfg) atom_type /\
    (ATOM_TYPE_MAP cfg !! atom_type = None -> mapped_type a = "X") /\
    (forall label, ATOM_TYPE_MAP cfg !! atom_type = Some label ->
                   mapped_type a = label) /\
    forall cfg' : config,
      exists a',
        parse_atom cfg' line = Ok (a', energy) /\
        (ATOM_TYPE_MAP cfg' !! atom_type = None -> mapped_type a' = "X") /\
        (forall label, ATOM_TYPE_MAP cfg' !! atom_type = Some label ->
                       mapped_type a' = label) /\
        (x a', y a', z a', fx a', fy a', fz a')
        = (x a, y a, z a, fx a, fy a, fz a).
Proof.
  unfold parse_atom, item.
  destruct (nth_error (split (text line)) 1) as [ty|]; cbn [or_raise bind];
    [|intros [=]].
  destruct (unpack3 (slice (split (text line)) 2 5)) as [[[x0 y0] z0]|];
    cbn [bind]; [|intros [=]].
  destruct (unpack3 (slice (split (text line)) 8 11)) as [[[x1 y1] z1]|];
    cbn [bind]; [|intros [=]].
  destruct (nth_error (split (text line)) 11) as [tok|]; cbn [or_raise bind];
    [|intros [=]].
  destruct (float_of_string tok) as [en|]; cbn [or_raise bind]; [|intros [=]].
  intros [= <- <-]. exists ty. cbn [mapped_type x y z fx fy fz].
  assert (L : forall m : gmap string string,
             (m !! ty = None -> type_map_get m ty = "X") /\
             (forall label, m !! ty = Some label -> type_map_get m ty = label)).
  { intros m. unfold type_map_get. split.
    - intros ->. reflexivity.
    - intros label ->. reflexivity. }
  split; [reflexivity|]. split; [reflexivity|].
  split; [apply L|]. split; [apply L|].
  intros cfg'. eexists. split; [reflexivity|].
  cbn [mapped_type x y z fx fy fz].
  split; [apply L|]. split; [apply L|reflexivity].
Qed.

Lemma type_lookup_never_fails_witness :
  exists a energy,
    parse_atom default_config (Some atom_unmapped) = Ok (a, energy) /\
    mapped_type a = "X" /\
    exists a',
      parse_atom feed_config (Some atom_unmapped) = Ok (a', energy) /\
      mapped_type a' = "X".
Proof.
  eexists. eexists. split; [vm_compute; reflexivity|].
  destruct (type_lookup_never_fails default_config (Some atom_unmapped) _ _
              ltac:(vm_compute; reflexivity))
    as (ty & Hty & _ & Hmiss & _ & Hany).
  vm_compute in Hty. injection Hty as <-.
  split; [apply Hmiss; vm_compute; reflexivity|].
  destruct (Hany feed_config) as (a' & Hp & Hmiss' & _).
  exists a'. split; [exact Hp|]. apply Hmiss'. vm_compute. reflexivity.
Defined.

(** C6, on the code: a wanted frame that is cut short can pass without
    an exception. The frame at timestep 100 declares three atoms and has
    two; alone it makes the call raise. After a frame of one atom that
    is skipped, the skip path has read the frame-start line of the frame
    at 100, the frame is never seen and the call returns the empty list. *)
Lemma truncated_frame_lost_after_skip :
  exists desired,
    range 0 (MAX_TIMESTEP default_config + 1)
      (TIMESTEP_INTERVAL default_config) = Ok desired /\
    mem 50 desired = false /\
    mem 100 desired = true /\
    process_dump_file default_config run_src
      (header "100" "3" "0 10" "0 5" "0 2" ++ [atom1; atom2])%list
    = Raises IndexError /\
    process_dump_file default_config run_src
      (frame1 "50" ++ header "100" "3" "0 10" "0 5" "0 2"
         ++ [atom1; atom2])%list
    = Returns [].
Proof.
  eexists. split; [vm_compute; reflexivity|].
  repeat split; vm_compute; reflexivity.
Qed.

Lemma join_cons2 (sep a b : string) (rest : list string) :
  join sep (a :: b :: rest) = a ++ sep ++ join sep (b :: rest).
Proof. reflexivity. Qed.

Lemma join_two (sep a b : string) : join sep [a; b] = a ++ sep ++ b.
Proof. reflexivity. Qed.

(** *** Strings without a line feed *)

Lemma all_chars_app (p : ascii -> bool) (a b : string) :
  all_chars p (a ++ b) = all_chars p a && all_chars p b.
Proof.
  induction a as [|c a IH]; [reflexivity|].
  rewrite append_cons. cbn [all_chars]. rewrite IH. apply andb_assoc.
Qed.

Lemma no_feed_app (a b : string) :
  no_feed a = true -> no_feed b = true -> no_feed (a ++ b) = true.
Proof.
  unfold no_feed. intros Ha Hb. rewrite all_chars_app, Ha, Hb. reflexivity.
Qed.

Lemma isdigit_not_feed (c : ascii) : isdigit c = true -> not_feed c = true.
Proof.
  destruct c as [[] [] [] [] [] [] [] []]; try reflexivity; discriminate.
Qed.

Lemma no_feed_of_digits (s : string) :
  all_chars isdigit s = true -> no_feed s = true.
Proof.
  apply all_chars_weaken. exact isdigit_not_feed.
Qed.

Lemma no_feed_digits (n : Z) : no_feed (PyInt.digits n) = true.
Proof. apply no_feed_of_digits. apply digits_all. Qed.

Lemma no_feed_str (n : Z) : no_feed (PyInt.str n) = true.
Proof.
  unfold PyInt.str. destruct (n <? 0).
  - apply no_feed_app; [reflexivity|apply no_feed_digits].
  - apply no_feed_digits.
Qed.

Lemma no_feed_padded (w : nat) (n : Z) : no_feed (PyInt.padded w n "") = true.
Proof. apply no_feed_of_digits. apply padded_all. reflexivity. Qed.

Lemma no_feed_zeros (n : nat) : no_feed (zeros n) = true.
Proof.
  induction n as [|n IH]; [reflexivity|].
  unfold no_feed in *. cbn [zeros all_chars]. rewrite IH. reflexivity.
Qed.

Lemma all_chars_substring (p : ascii -> bool) (s : string) :
  all_chars p s = true ->
  forall n m, all_chars p (String.substring n m s) = true.
Proof.
  induction s as [|c s IH]; intros H n m.
  - destruct n, m; reflexivity.
  - cbn [all_chars] in H. apply andb_true_iff in H. destruct H as [Hc Hs].
    destruct n as [|n].
    + destruct m as [|m]; [reflexivity|].
      cbn [String.substring all_chars]. rewrite Hc. apply (IH Hs).
    + cbn [String.substring]. apply (IH Hs).
Qed.

Lemma no_feed_take (n : nat) (s : string) :
  no_feed s = true -> no_feed (take n s) = true.
Proof. intros H. apply all_chars_substring. exact H. Qed.

Lemma no_feed_drop (n : nat) (s : string) :
  no_feed s = true -> no_feed (drop n s) = true.
Proof. intros H. apply all_chars_substring. exact H. Qed.

Lemma no_feed_sign (neg : bool) : no_feed (sign_str neg) = true.
Proof. destruct neg; reflexivity. Qed.

Lemma no_feed_exp (e : Z) : no_feed (exp_str e) = true.
Proof.
  unfold exp_str.
  apply no_feed_app; [destruct (e <? 0); reflexivity|].
  apply no_feed_app; [destruct (Z.abs e <? 10); reflexivity|].
  apply no_feed_digits.
Qed.

Lemma no_feed_format_8f (v : float) : no_feed (format_8f v) = true.
Proof.
  destruct v as [s|s| |s m e]; cbn [format_8f].
  - apply no_feed_app; [apply no_feed_sign|reflexivity].
  - apply no_feed_app; [apply no_feed_sign|reflexivity].
  - reflexivity.
  - destruct (fraction m e) as [num den].
    apply no_feed_app; [apply no_feed_sign|].
    apply no_feed_app; [apply no_feed_digits|].
    apply no_feed_app; [reflexivity|apply no_feed_padded].
Qed.

Lemma no_feed_repr (v : float) : no_feed (repr v) = true.
Proof.
  destruct v as [s|s| |s m e]; cbn [repr].
  - apply no_feed_app; [apply no_feed_sign|reflexivity].
  - apply no_feed_app; [apply no_feed_sign|reflexivity].
  - reflexivity.
  - destruct (shortest m e) as [d k].
    pose proof (no_feed_digits d) as Hd.
    apply no_feed_app; [apply no_feed_sign|].
    destruct ((Z.of_nat (String.length (PyInt.digits d)) + k <=? -4)
              || (16 <? Z.of_nat (String.length (PyInt.digits d)) + k)).
    + apply no_feed_app; [apply no_feed_take; exact Hd|].
      apply no_feed_app.
      * destruct (1 <? Z.of_nat (String.length (PyInt.digits d)));
          [|reflexivity].
        apply no_feed_app; [reflexivity|apply no_feed_drop; exact Hd].
      * apply no_feed_app; [reflexivity|apply no_feed_exp].
    + destruct (Z.of_nat (String.length (PyInt.digits d)) + k <=? 0).
      * apply no_feed_app; [reflexivity|].
        apply no_feed_app; [apply no_feed_zeros|exact Hd].
      * destruct (Z.of_nat (String.length (PyInt.digits d)) + k
                  <? Z.of_nat (String.length (PyInt.digits d))).
        -- apply no_feed_app; [apply no_feed_take; exact Hd|].
           apply no_feed_app; [reflexivity|apply no_feed_drop; exact Hd].
        -- apply no_feed_app; [exact Hd|].
           apply no_feed_app; [apply no_feed_zeros|reflexivity].
Qed.

Lemma no_feed_category (src : source) (t : Z) :
  no_feed (rel_path src) = true -> no_feed (base_name src) = true ->
  no_feed (category src t) = true.
Proof.
  intros Hr Hb. unfold category.
  destruct (negb (String.eqb (rel_path src) ".")).
  - apply no_feed_app; [exact Hr|]. apply no_feed_app; [reflexivity|].
    apply no_feed_app; [exact Hb|].
    apply no_feed_app; [reflexivity|apply no_feed_str].
  - apply no_feed_app; [exact Hb|].
    apply no_feed_app; [reflexivity|apply no_feed_str].
Qed.

Lemma no_feed_metadata_line (src : source) (fr : frame) :
  no_feed (rel_path src) = true -> no_feed (base_name src) = true ->
  no_feed (metadata_line src fr) = true.
Proof.
  intros Hr Hb. unfold metadata_line, lattice.
  repeat first
    [ apply no_feed_repr
    | apply (no_feed_category src _ Hr Hb)
    | reflexivity
    | apply no_feed_app ].
Qed.

Lemma no_feed_atom_line (a : atom) :
  no_feed (mapped_type a) = true -> no_feed (atom_line a) = true.
Proof.
  intros H. unfold atom_line.
  repeat first
    [ exact H
    | apply no_feed_format_8f
    | reflexivity
    | apply no_feed_app ].
Qed.

(** The label of an atom that parses is the lookup of [parts[1]]. *)
Lemma parse_atom_label (cfg : config) (line : option string) (a : atom)
    (e : float) :
  parse_atom cfg line = Ok (a, e) ->
  exists atom_type,
    mapped_type a = type_map_get (ATOM_TYPE_MAP cfg) atom_type.
Proof.
  unfold parse_atom, item.
  destruct (nth_error (split (text line)) 1) as [ty|]; cbn [or_raise bind];
    [|intros [=]].
  destruct (unpack3 (slice (split (text line)) 2 5)) as [[[x0 y0] z0]|];
    cbn [bind]; [|intros [=]].
  destruct (unpack3 (slice (split (text line)) 8 11)) as [[[x1 y1] z1]|];
    cbn [bind]; [|intros [=]].
  destruct (nth_error (split (text line)) 11) as [tok|]; cbn [or_raise bind];
    [|intros [=]].
  destruct (float_of_string tok) as [en|]; cbn [or_raise bind]; [|intros [=]].
  intros [= <- <-]. exists ty. reflexivity.
Qed.

Lemma no_feed_label (cfg : config) (line : option string) (a : atom)
    (e : float) :
  (forall token label,
      ATOM_TYPE_MAP cfg !! token = Some label -> no_feed label = true) ->
  parse_atom cfg line = Ok (a, e) ->
  no_feed (mapped_type a) = true.
Proof.
  intros Hm Hp. destruct (parse_atom_label cfg line a e Hp) as [ty ->].
  unfold type_map_get.
  destruct (ATOM_TYPE_MAP cfg !! ty) as [label|] eqn:E; [|reflexivity].
  exact (Hm ty label E).
Qed.

(** *** The lines of a joined text *)

Lemma not_feed_eqb (c : ascii) :
  not_feed c = true -> Ascii.eqb c (ascii_of_N 10) = false.
Proof. unfold not_feed. intros H. apply negb_true_iff. exact H. Qed.

Lemma lines_from_no_feed (s : string) :
  no_feed s = true -> forall cur, lines_from cur s = [cur ++ s].
Proof.
  induction s as [|c s IH]; intros H cur.
  - cbn [lines_from]. rewrite append_nil_r. reflexivity.
  - unfold no_feed in H. cbn [all_chars] in H.
    apply andb_true_iff in H. destruct H as [Hc Hs].
    cbn [lines_from]. rewrite (not_feed_eqb c Hc), (IH Hs).
    rewrite append_assoc. reflexivity.
Qed.

Lemma lines_from_feed (s t : string) :
  no_feed s = true ->
  forall cur, lines_from cur (s ++ nl ++ t) = (cur ++ s) :: lines_from "" t.
Proof.
  induction s as [|c s IH]; intros H cur.
  - change ("" ++ nl ++ t) with (String (ascii_of_N 10) t).
    cbn [lines_from]. rewrite Ascii.eqb_refl, append_nil_r. reflexivity.
  - unfold no_feed in H. cbn [all_chars] in H.
    apply andb_true_iff in H. destruct H as [Hc Hs].
    rewrite append_cons. cbn [lines_from].
    rewrite (not_feed_eqb c Hc), (IH Hs), append_assoc. reflexivity.
Qed.

(** Splitting at line feeds the join of lines without line feeds gives
    the lines back. *)
Lemma lines_of_join (parts : list string) :
  parts <> [] ->
  Forall (fun p => no_feed p = true) parts ->
  lines_of (join nl parts) = parts.
Proof.
  unfold lines_of. induction parts as [|p parts IH]; intros Hne Hall;
    [contradiction|].
  inversion Hall as [|? ? Hp Hps]; subst.
  destruct parts as [|q parts].
  - cbn [join]. rewrite (lines_from_no_feed p Hp). reflexivity.
  - rewrite join_cons2, (lines_from_feed p _ Hp).
    rewrite IH; [reflexivity|discriminate|exact Hps].
Qed.

Lemma join_middle (sep : string) (l1 : list string) (x : string)
    (l2 : list string) :
  l1 <> [] ->
  exists after,
    join sep (l1 ++ x :: l2) = join sep l1 ++ sep ++ x ++ after.
Proof.
  induction l1 as [|p l1 IH]; intros Hne; [contradiction|].
  destruct l1 as [|q l1].
  - cbn [app]. rewrite join_cons2. destruct l2 as [|r l2].
    + exists "". cbn [join]. rewrite append_nil_r. reflexivity.
    + exists (sep ++ join sep (r :: l2)). rewrite join_cons2. reflexivity.
  - destruct (IH ltac:(discriminate)) as [after Ha]. exists after.
    change ((p :: q :: l1) ++ x :: l2)%list
      with (p :: q :: (l1 ++ x :: l2))%list.
    rewrite !join_cons2.
    change (q :: (l1 ++ x :: l2))%list with ((q :: l1) ++ x :: l2)%list.
    rewrite Ha. repeat rewrite append_assoc. reflexivity.
Qed.

Lemma parsed_labels_no_feed (cfg : config) (lines : list string)
    (parsed : list (atom * float)) :
  (forall token label,
      ATOM_TYPE_MAP cfg !! token = Some label -> no_feed label = true) ->
  Forall2 (fun l p => parse_atom cfg (Some l) = Ok p) lines parsed ->
  Forall (fun p => no_feed p = true) (map atom_line (map fst parsed)).
Proof.
  intros Hm. induction 1 as [|l [a e] lines parsed Hp _ IH]; [constructor|].
  cbn [map fst]. constructor; [|exact IH].
  apply no_feed_atom_line. exact (no_feed_label cfg (Some l) a e Hm Hp).
Qed.

(** C9, amended. Take a block made from a frame whose declared count is
    not negative, with no line feed in the file's base name, in its
    relative directory or in a label of the type map. Split at its line
    feeds, the block is its count, its metadata line and its atom lines;
    the count on its first line is the number of its atom lines, and the
    i-th of them is the rendering of the i-th atom line of the frame in
    the dump. *)
Theorem block_count_and_order (cfg : config) (src : source) (t : Z)
    (f rest : stream) (fr : frame) :
  parse_frame cfg t f = Ok (fr, rest) ->
  0 <= num_atoms fr ->
  no_feed (rel_path src) = true ->
  no_feed (base_name src) = true ->
  (forall token label,
      ATOM_TYPE_MAP cfg !! token = Some label -> no_feed label = true) ->
  exists (lines atom_lines : list string),
    skipn 7 f = (lines ++ rest)%list /\
    frame_content src fr
    = PyInt.str (Z.of_nat (length atom_lines))
        :: metadata_line src fr :: atom_lines /\
    map (rendered_atom cfg) lines = map Some atom_lines /\
    lines_of (render src fr)
    = PyInt.str (Z.of_nat (length atom_lines))
        :: metadata_line src fr :: atom_lines /\
    count_matches (render src fr) = true.
Proof.
  intros H Hn Hr Hb Hm. apply parse_frame_ok in H.
  destruct H as (lines & parsed & Hf & Hlen & Hall & Hat & _).
  destruct (parsed_rendered cfg lines parsed Hall) as [Hren Hl].
  assert (C : frame_content src fr
              = PyInt.str (Z.of_nat (length (map atom_line (map fst parsed))))
                  :: metadata_line src fr :: map atom_line (map fst parsed)).
  { unfold frame_content. rewrite Hat. cbn [app].
    rewrite !length_map, <- Hl, Hlen, Z2Nat.id by exact Hn. reflexivity. }
  assert (L : lines_of (render src fr) = frame_content src fr).
  { unfold render. apply lines_of_join.
    - unfold frame_content. discriminate.
    - rewrite C. constructor; [apply no_feed_str|].
      constructor; [apply no_feed_metadata_line; assumption|].
      exact (parsed_labels_no_feed cfg lines parsed Hm Hall). }
  exists lines, (map atom_line (map fst parsed)).
  split; [exact Hf|]. split; [exact C|]. split; [exact Hren|].
  split; [rewrite L; exact C|].
  unfold count_matches. rewrite L, C, int_str. apply Z.eqb_refl.
Qed.

Lemma block_count_and_order_witness :
  exists fr,
    parse_frame default_config 0 (skipn 2 (frame3 "0")) = Ok (fr, []) /\
    exists (lines atom_lines : list string),
      skipn 7 (skipn 2 (frame3 "0")) = (lines ++ [])%list /\
      frame_content run_src fr
      = PyInt.str (Z.of_nat (length atom_lines))
          :: metadata_line run_src fr :: atom_lines /\
      map (rendered_atom default_config) lines = map Some atom_lines /\
      lines_of (render run_src fr)
      = PyInt.str (Z.of_nat (length atom_lines))
          :: metadata_line run_src fr :: atom_lines /\
      count_matches (render run_src fr) = true.
Proof.
  eexists. split; [vm_compute; reflexivity|].
  apply (block_count_and_order default_config run_src 0).
  - vm_compute. reflexivity.
  - vm_compute. discriminate.
  - reflexivity.
  - reflexivity.
  - intros token label H.
    unfold default_config in H. cbn [ATOM_TYPE_MAP] in H.
    apply lookup_insert_Some in H.
    destruct H as [[_ <-]|[_ H]]; [reflexivity|].
    apply lookup_insert_Some in H.
    destruct H as [[_ <-]|[_ H]]; [reflexivity|].
    apply lookup_insert_Some in H.
    destruct H as [[_ <-]|[_ H]]; [reflexivity|].
    rewrite lookup_empty in H. discriminate H.
Defined.

(** C9 as stated fails twice. A frame that declares a negative count
    gives a block that starts with that count and has no atom line. A
    label of two lines gives a block whose first line says 3 and that has
    five lines after its metadata line. *)
Lemma negative_count_block :
  (exists block,
     process_dump_file default_config run_src
       (header "100" "-3" "0 10" "0 5" "0 2") = Returns [block] /\
     lines_of block <> [] /\
     nth_error (lines_of block) 0 = Some "-3" /\
     skipn 2 (lines_of block) = [] /\
     count_matches block = false) /\
  (exists block,
     process_dump_file feed_config run_src (frame3 "0") = Returns [block] /\
     nth_error (lines_of block) 0 = Some "3" /\
     length (skipn 2 (lines_of block)) = 5%nat /\
     count_matches block = false).
Proof.
  split.
  - eexists. split; [vm_compute; reflexivity|].
    split; [vm_compute; discriminate|].
    split; [vm_compute; reflexivity|].
    split; vm_compute; reflexivity.
  - eexists. split; [vm_compute; reflexivity|].
    split; [vm_compute; reflexivity|].
    split; vm_compute; reflexivity.
Qed.

(** *** The numbers of a block *)

Lemma format_8f_not_finite (v : float) :
  is_finite v = false ->
  format_8f v = "nan" \/ format_8f v = "inf" \/ format_8f v = "-inf".
Proof.
  destruct v as [s|[]| |s m e]; try discriminate; intros _.
  - right. right. reflexivity.
  - right. left. reflexivity.
  - left. reflexivity.
Qed.

(** C4, amended. In every block, each of the six numbers of an atom line
    is written with the [.8f] format: when the number is finite, in
    fixed-point notation with eight decimals, and otherwise as [nan],
    [inf] or [-inf]. The three edge lengths and the energy of the
    metadata line are written as [repr] writes a float, and the other six
    lattice values are the text [0.0]. *)
Theorem atom_numbers_fixed8 (src : source) (fr : frame) (a : atom) :
  In a (atoms_data fr) ->
  In (atom_line a) (frame_content src fr) /\
  (exists before after,
     render src fr = before ++ nl ++ atom_line a ++ after) /\
  (exists fields,
     atom_line a = join " " (mapped_type a :: fields) /\
     Forall2
       (fun v field =>
          field = format_8f v /\
          (is_finite v = true -> is_fixed8 field = true) /\
          (is_finite v = false ->
           field = "nan" \/ field = "inf" \/ field = "-inf"))
       [x a; y a; z a; fx a; fy a; fz a] fields) /\
  lattice fr
  = join " " [repr (lx fr); "0.0"; "0.0"; "0.0"; repr (ly fr);
              "0.0"; "0.0"; "0.0"; repr (lz fr)] /\
  exists middle tail,
    metadata_line src fr
    = "Lattice=" ++ dq ++ lattice fr ++ dq ++ middle
        ++ "energy=" ++ repr (total_energy fr) ++ " pbc=" ++ dq ++ "T T T" ++ dq
    /\ render src fr
       = PyInt.str (num_atoms fr) ++ nl ++ metadata_line src fr ++ tail.
Proof.
  intros Hin.
  destruct (in_split a (atoms_data fr) Hin) as (a1 & a2 & Ha).
  assert (C : frame_content src fr
              = (([PyInt.str (num_atoms fr); metadata_line src fr]
                  ++ map atom_line a1)
                 ++ atom_line a :: map atom_line a2)%list).
  { unfold frame_content. rewrite Ha, map_app. cbn [map].
    rewrite <- app_assoc. reflexivity. }
  split; [|split; [|split; [|split]]].
  - unfold frame_content. apply in_or_app. right. apply in_map. exact Hin.
  - unfold render. rewrite C.
    destruct (join_middle nl
                ([PyInt.str (num_atoms fr); metadata_line src fr]
                 ++ map atom_line a1)%list
                (atom_line a) (map atom_line a2) ltac:(discriminate))
      as [after Hj].
    eexists. exists after. exact Hj.
  - exists [format_8f (x a); format_8f (y a); format_8f (z a);
            format_8f (fx a); format_8f (fy a); format_8f (fz a)].
    split; [reflexivity|].
    repeat (constructor;
            [split; [reflexivity|split;
                     [apply format_8f_fixed8|apply format_8f_not_finite]]|]).
    constructor.
  - reflexivity.
  - exists (" " ++ "Properties=species:S:1:pos:R:3:forces:R:3 "
            ++ "name=Amorphous_Bulk category=" ++ category src (timestep fr)
            ++ " ").
    destruct (join_middle nl [PyInt.str (num_atoms fr)]
                (metadata_line src fr) (map atom_line (atoms_data fr))
                ltac:(discriminate)) as [tail Ht].
    exists tail. split.
    + unfold metadata_line. repeat rewrite append_assoc. reflexivity.
    + unfold render, frame_content. exact Ht.
Qed.

Lemma atom_numbers_fixed8_witness :
  exists fr a,
    parse_frame default_config 0
      (skipn 2 (header "0" "2" "0 10" "0 5" "0 2") ++ [atom1; atom_nan])%list
    = Ok (fr, []) /\
    nth_error (atoms_data fr) 1 = Some a /\
    In (atom_line a) (frame_content run_src fr) /\
    exists fields,
      atom_line a = join " " (mapped_type a :: fields) /\
      Forall2
        (fun v field =>
           field = format_8f v /\
           (is_finite v = true -> is_fixed8 field = true) /\
           (is_finite v = false ->
            field = "nan" \/ field = "inf" \/ field = "-inf"))
        [x a; y a; z a; fx a; fy a; fz a] fields.
Proof.
  eexists. eexists. split; [vm_compute; reflexivity|].
  split; [vm_compute; reflexivity|].
  match goal with
  | |- In (atom_line ?a0) (frame_content _ ?fr0) /\ _ =>
      destruct (atom_numbers_fixed8 run_src fr0 a0) as (H1 & _ & H3 & _)
  end.
  - right. left. reflexivity.
  - split; [exact H1|exact H3].
Defined.

(** C4 as stated fails twice. In the block of the scenario frame the
    edge length reads [10.0] and the energy [3.0], neither with eight
    decimals. In the block of a frame with the atom line [atom_nan], the
    first number of the atom line reads [nan]. *)
Lemma lattice_and_energy_not_fixed8 :
  (exists block,
     process_dump_file default_config run_src (frame3 "0") = Returns [block] /\
     nth_error (real_fields block) 0 = Some "10.0" /\
     nth_error (real_fields block) 9 = Some "3.0" /\
     is_fixed8 "10.0" = false /\
     is_fixed8 "3.0" = false /\
     forallb is_fixed8 (real_fields block) = false) /\
  (exists block,
     process_dump_file default_config run_src
       (header "0" "1" "0 10" "0 5" "0 2" ++ [atom_nan])%list
     = Returns [block] /\
     nth_error (real_fields block) 10 = Some "nan" /\
     nth_error (real_fields block) 14 = Some "-inf" /\
     is_fixed8 "nan" = false /\
     is_fixed8 "-inf" = false).
Proof.
  split.
  - eexists. split; [vm_compute; reflexivity|].
    repeat split; vm_compute; reflexivity.
  - eexists. split; [vm_compute; reflexivity|].
    repeat split; vm_compute; reflexivity.
Qed.
